(** * STEP generator: geometry model and exchange-format encoder

    A shallow embedding of [step_generator.py]:
    [Point3D], [Line3D], [B1Entity] and [STEPGenerator].

    - Coordinates are Python floats, that is IEEE 754 binary64 values: they
      are modelled by Rocq's primitive floats, which are the same format with
      the same correctly rounded operations.  The integer literals the source
      passes where a float is annotated ([Point3D(0, 0, 0)], [_direction(0, 0, 1)])
      are taken at their float value.
    - Python objects are mutable and passed by reference.  The encoder
      instance ([self]), the geometry set ([b1]) and the files on disk live in
      one store, the [World]; every method is a computation over it that
      either returns a value or raises a Python exception.
    - [_add_entity] stores the text [#id = TYPE(attributes);].  The model
      stores the triple the text is made of and produces the text with
      [render_entity] when the document is written. *)

From Stdlib Require Import List String Ascii Arith Lia Bool ZArith.
From Stdlib Require Import Floats.
From Stdlib Require DecimalString.
Import ListNotations.

Local Open Scope string_scope.
Local Open Scope list_scope.
Local Open Scope nat_scope.

(** ** Geometry model *)

Record Point3D : Type := mkPoint3D { x : float; y : float; z : float }.

Record Line3D : Type := mkLine3D { start : Point3D; end_ : Point3D }.

Record B1Entity : Type := mkB1Entity {
  points : list Point3D;
  lines : list Line3D;
  name : string
}.

(** ** Exceptions and results *)

Inductive exn : Type :=
| WriteError        (* OSError raised by [open] or [f.write] *)
| ValueError        (* [math.sqrt] of a negative number, [min]/[max] of an empty sequence *)
| ZeroDivisionError (* float division by zero *)
| IndexError.       (* list index out of range *)

Inductive result (A : Type) : Type :=
| Ok (a : A)
| Raise (e : exn).

Arguments Ok {A} a.
Arguments Raise {A} e.

(** ** Entity records *)

Inductive attr : Type :=
| ALabel (s : string)          (* a quoted label, ['...'] *)
| ACoords (a b c : float)      (* [(a,b,c)] *)
| ARef (id : nat)              (* [#id] *)
| ANum (v : float).            (* a bare number *)

Record entity : Type := mkEntity {
  e_id : nat;
  e_type : string;
  e_attrs : list attr
}.

Record STEPGenerator : Type := mkSTEPGenerator {
  entity_counter : nat;
  entities : list entity
}.

(** ** The store *)

Record World : Type := mkWorld {
  generator : STEPGenerator;                (* the object behind [self] *)
  geometry : B1Entity;                      (* the object behind [b1] *)
  files : string -> option (list string)    (* per path, the chunks written *)
}.

(** What the encoder gets from the Python runtime and the operating system:
    the text of a float in an f-string, the formatted current time, and
    whether a path can be opened for writing and a chunk appended to it.
    A host stands for the runtime during one call: [datetime.now()] is read
    at every call, so two calls are given a host each. *)
Record Host : Type := mkHost {
  float_str : float -> string;
  strftime_now : string;
  can_open : string -> bool;
  can_write : string -> list string -> string -> bool
}.

Definition M (A : Type) : Type := World -> result A * World.

Definition ret {A} (a : A) : M A := fun w => (Ok a, w).

Definition raise {A} (e : exn) : M A := fun w => (Raise e, w).

Definition bind {A B} (m : M A) (k : A -> M B) : M B :=
  fun w => match m w with
           | (Ok a, w') => k a w'
           | (Raise e, w') => (Raise e, w')
           end.

Definition lift {A} (r : result A) : M A := fun w => (r, w).

Notation "x <- m ;; k" := (bind m (fun x => k))
  (at level 61, m at next level, right associativity).
Notation "m ;;; k" := (bind m (fun _ => k))
  (at level 61, right associativity).

Definition get_self : M STEPGenerator := fun w => (Ok (generator w), w).

Definition set_self (g : STEPGenerator) : M unit :=
  fun w => (Ok tt, mkWorld g (geometry w) (files w)).

Definition get_b1 : M B1Entity := fun w => (Ok (geometry w), w).

(** [for x in xs: body], with the loop's local variables as [s]. *)
Fixpoint for_in {A S} (xs : list A) (body : A -> S -> M S) (s : S) : M S :=
  match xs with
  | [] => ret s
  | x :: xs' => s' <- body x s ;; for_in xs' body s'
  end.

(** ** Float operations of the Python runtime *)

Definition math_sqrt (v : float) : result float :=
  if (v <? 0)%float then Raise ValueError else Ok (sqrt v).

Definition float_div (a b : float) : result float :=
  if (b =? 0)%float then Raise ZeroDivisionError else Ok (a / b)%float.

(** The builtin [min]: the first element, replaced by each later element
    that compares less. *)
Definition py_min (vs : list float) : result float :=
  match vs with
  | [] => Raise ValueError
  | v :: vs' => Ok (fold_left (fun cur item => if (item <? cur)%float then item else cur) vs' v)
  end.

Definition py_max (vs : list float) : result float :=
  match vs with
  | [] => Raise ValueError
  | v :: vs' => Ok (fold_left (fun cur item => if (cur <? item)%float then item else cur) vs' v)
  end.

Definition rbind {A B} (r : result A) (k : A -> result B) : result B :=
  match r with
  | Ok a => k a
  | Raise e => Raise e
  end.

(** ** Line3D.length

    Named [length_]: [length] is the length of lists and strings. *)

Definition length_ (l : Line3D) : result float :=
  let dx := (x (end_ l) - x (start l))%float in
  let dy := (y (end_ l) - y (start l))%float in
  let dz := (z (end_ l) - z (start l))%float in
  math_sqrt (dx * dx + dy * dy + dz * dz)%float.

(** ** B1Entity.get_bounding_box *)

Definition get_bounding_box (b : B1Entity) : result (Point3D * Point3D) :=
  match points b with
  | [] => Ok (mkPoint3D 0 0 0, mkPoint3D 0 0 0)
  | _ :: _ =>
      rbind (py_min (map x (points b))) (fun min_x =>
      rbind (py_min (map y (points b))) (fun min_y =>
      rbind (py_min (map z (points b))) (fun min_z =>
      rbind (py_max (map x (points b))) (fun max_x =>
      rbind (py_max (map y (points b))) (fun max_y =>
      rbind (py_max (map z (points b))) (fun max_z =>
      Ok (mkPoint3D min_x min_y min_z, mkPoint3D max_x max_y max_z)))))))
  end.

(** ** STEPGenerator *)

Definition _next_id : M nat :=
  self <- get_self ;;
  let current := entity_counter self in
  set_self (mkSTEPGenerator (entity_counter self + 1) (entities self)) ;;;
  ret current.

Definition _add_entity (entity_type : string) (attributes : list attr) : M nat :=
  entity_id <- _next_id ;;
  self <- get_self ;;
  set_self (mkSTEPGenerator (entity_counter self)
              (entities self ++ [mkEntity entity_id entity_type attributes])) ;;;
  ret entity_id.

Definition _cartesian_point (point : Point3D) : M nat :=
  _add_entity "CARTESIAN_POINT" [ALabel EmptyString; ACoords (x point) (y point) (z point)].

Definition _direction (dx dy dz : float) : M nat :=
  _add_entity "DIRECTION" [ALabel EmptyString; ACoords dx dy dz].

Definition _vector (direction_id : nat) (magnitude : float) : M nat :=
  _add_entity "VECTOR" [ALabel EmptyString; ARef direction_id; ANum magnitude].

Definition _line (start_point_id vector_id : nat) : M nat :=
  _add_entity "LINE" [ALabel EmptyString; ARef start_point_id; ARef vector_id].

(** [xs[i]] *)
Definition index {A} (xs : list A) (i : nat) : M A :=
  match nth_error xs i with
  | Some v => ret v
  | None => raise IndexError
  end.

Definition _generate_surfaces_from_lines : M (list nat) :=
  b1 <- get_b1 ;;
  let surface_ids := [] in
  if 3 <=? List.length (lines b1) then
    point_ids <- for_in (firstn 4 (lines b1))
      (fun line point_ids =>
         start_id <- _cartesian_point (start line) ;;
         end_id <- _cartesian_point (end_ line) ;;
         ret (point_ids ++ [start_id; end_id]))
      [] ;;
    if 4 <=? List.length point_ids then
      origin_id <- index point_ids 0 ;;
      normal_dir_id <- _direction 0 0 1 ;;
      plane_id <- _add_entity "PLANE" [ALabel EmptyString; ARef origin_id; ARef normal_dir_id] ;;
      ret (surface_ids ++ [plane_id])
    else ret surface_ids
  else ret surface_ids.

Definition _generate_solid_from_surfaces (surface_ids : list nat) : M (option nat) :=
  match surface_ids with
  | [] => ret None
  | _ :: _ =>
      b1 <- get_b1 ;;
      bb <- lift (get_bounding_box b1) ;;
      let '(min_pt, max_pt) := bb in
      let corners := [
        mkPoint3D (x min_pt) (y min_pt) (z min_pt);
        mkPoint3D (x max_pt) (y min_pt) (z min_pt);
        mkPoint3D (x max_pt) (y max_pt) (z min_pt);
        mkPoint3D (x min_pt) (y max_pt) (z min_pt);
        mkPoint3D (x min_pt) (y min_pt) (z max_pt);
        mkPoint3D (x max_pt) (y min_pt) (z max_pt);
        mkPoint3D (x max_pt) (y max_pt) (z max_pt);
        mkPoint3D (x min_pt) (y max_pt) (z max_pt)
      ] in
      corner_ids <- for_in corners
        (fun pt ids => i <- _cartesian_point pt ;; ret (ids ++ [i])) [] ;;
      c0 <- index corner_ids 0 ;;
      solid_id <- _add_entity "BLOCK"
        [ALabel EmptyString; ARef c0;
         ANum (x max_pt - x min_pt)%float;
         ANum (y max_pt - y min_pt)%float;
         ANum (z max_pt - z min_pt)%float] ;;
      ret (Some solid_id)
  end.

(** The body of [for line in b1.lines] in [generate_step_file]. *)
Definition process_line (line : Line3D) (line_ids : list nat) : M (list nat) :=
  start_id <- _cartesian_point (start line) ;;
  let dx := (x (end_ line) - x (start line))%float in
  let dy := (y (end_ line) - y (start line))%float in
  let dz := (z (end_ line) - z (start line))%float in
  magnitude <- lift (length_ line) ;;
  if (0 <? magnitude)%float then
    dx' <- lift (float_div dx magnitude) ;;
    dy' <- lift (float_div dy magnitude) ;;
    dz' <- lift (float_div dz magnitude) ;;
    direction_id <- _direction dx' dy' dz' ;;
    vector_id <- _vector direction_id magnitude ;;
    line_id <- _line start_id vector_id ;;
    ret (line_ids ++ [line_id])
  else ret line_ids.

(** [# Process points]: the first loop of [generate_step_file]. *)
Definition process_points : M (list nat) :=
  b1 <- get_b1 ;;
  for_in (points b1)
    (fun point point_ids =>
       point_id <- _cartesian_point point ;;
       ret (point_ids ++ [point_id]))
    [].

(** [# Process lines]: the second loop of [generate_step_file]. *)
Definition process_lines : M (list nat) :=
  b1 <- get_b1 ;;
  for_in (lines b1) process_line [].

(** *** Rendering and writing *)

Definition nl : string := String (ascii_of_nat 10) EmptyString.

Definition str_of_nat (n : nat) : string :=
  DecimalString.NilEmpty.string_of_uint (Nat.to_uint n).

(** The text of an attribute.  [float_str] is given every number, the
    integer literals of the source included, which Python prints without a
    fraction. *)
Definition render_attr (h : Host) (a : attr) : string :=
  match a with
  | ALabel s => "'" ++ s ++ "'"
  | ACoords a b c =>
      "(" ++ float_str h a ++ "," ++ float_str h b ++ "," ++ float_str h c ++ ")"
  | ARef id => "#" ++ str_of_nat id
  | ANum v => float_str h v
  end.

(** [#{entity_id} = {entity_type}({attributes});] *)
Definition render_entity (h : Host) (e : entity) : string :=
  "#" ++ str_of_nat (e_id e) ++ " = " ++ e_type e ++ "("
      ++ String.concat "," (map (render_attr h) (e_attrs e)) ++ ");".

(** [open(filename, 'w')]: the file is created or truncated. *)
Definition open_w (h : Host) (filename : string) : M unit :=
  fun w =>
    if can_open h filename then
      (Ok tt, mkWorld (generator w) (geometry w)
                (fun p => if String.eqb p filename then Some [] else files w p))
    else (Raise WriteError, w).

(** [f.write(chunk)].  A refused chunk stands for the OSError that ends the
    [with] block, raised by a write or by the flush when the file is closed;
    the chunks kept for the path after a refusal do not describe what a
    buffered file leaves on the disk. *)
Definition f_write (h : Host) (filename : string) (chunk : string) : M unit :=
  fun w =>
    match files w filename with
    | Some written =>
        if can_write h filename written chunk then
          (Ok tt, mkWorld (generator w) (geometry w)
                    (fun p => if String.eqb p filename
                              then Some (written ++ [chunk]) else files w p))
        else (Raise WriteError, w)
    | None => (Raise WriteError, w)
    end.

Definition _write_step_file (h : Host) (filename : string) : M unit :=
  open_w h filename ;;;
  f_write h filename ("ISO-10303-21;" ++ nl) ;;;
  f_write h filename ("HEADER;" ++ nl) ;;;
  f_write h filename
    ("FILE_DESCRIPTION(('Generated STEP file for B1 entity'),'2;1');" ++ nl) ;;;
  let timestamp := strftime_now h in
  f_write h filename
    ("FILE_NAME('" ++ filename ++ "','" ++ timestamp
       ++ "',('STEP Generator'),('Python Script'),'','','');" ++ nl) ;;;
  f_write h filename ("FILE_SCHEMA(('AUTOMOTIVE_DESIGN'));" ++ nl) ;;;
  f_write h filename ("ENDSEC;" ++ nl ++ nl) ;;;
  f_write h filename ("DATA;" ++ nl) ;;;
  self <- get_self ;;
  for_in (entities self)
    (fun entity (_ : unit) => f_write h filename (render_entity h entity ++ nl)) tt ;;;
  f_write h filename ("ENDSEC;" ++ nl) ;;;
  f_write h filename ("END-ISO-10303-21;" ++ nl).

Definition generate_step_file (h : Host) (filename : string) : M unit :=
  self <- get_self ;;
  set_self (mkSTEPGenerator 1 (entities self)) ;;;
  self <- get_self ;;
  set_self (mkSTEPGenerator (entity_counter self) []) ;;;
  point_ids <- process_points ;;
  line_ids <- process_lines ;;
  surface_ids <- _generate_surfaces_from_lines ;;
  solid_id <- _generate_solid_from_surfaces surface_ids ;;
  _write_step_file h filename.

(** ** Vocabulary of the properties *)

(** The identifiers a record refers to. *)
Definition attr_refs (a : attr) : list nat :=
  match a with
  | ARef i => [i]
  | _ => []
  end.

Definition refs (e : entity) : list nat := flat_map attr_refs (e_attrs e).

(** The records [es] carry the identifiers [n], [n+1], ... in order. *)
Definition ids_from (n : nat) (es : list entity) : Prop :=
  map e_id es = seq n (List.length es).

(** Every reference of a record points to an earlier identifier. *)
Definition backward_refs (es : list entity) : Prop :=
  Forall (fun e => Forall (fun r => 1 <= r < e_id e) (refs e)) es.

Definition count_type (t : string) (es : list entity) : nat :=
  List.length (filter (fun e => String.eqb (e_type e) t) es).

(** Python's [==] on every coordinate, or the very same coordinates. *)
Definition same_coordinates (p q : Point3D) : Prop :=
  p = q \/
  ((x p =? x q)%float && (y p =? y q)%float && (z p =? z q)%float = true).

Definition nonzero_length (l : Line3D) : bool :=
  match length_ l with
  | Ok m => negb (is_nan m) && negb (m =? 0)%float
  | Raise _ => false
  end.

Definition zero_length (l : Line3D) : bool :=
  match length_ l with
  | Ok m => (m =? 0)%float
  | Raise _ => false
  end.

(** The chunks [_write_step_file] passes to [f.write], in order. *)
Definition document (h : Host) (filename : string) (es : list entity) : list string :=
  [ "ISO-10303-21;" ++ nl;
    "HEADER;" ++ nl;
    "FILE_DESCRIPTION(('Generated STEP file for B1 entity'),'2;1');" ++ nl;
    "FILE_NAME('" ++ filename ++ "','" ++ strftime_now h
       ++ "',('STEP Generator'),('Python Script'),'','','');" ++ nl;
    "FILE_SCHEMA(('AUTOMOTIVE_DESIGN'));" ++ nl;
    "ENDSEC;" ++ nl ++ nl;
    "DATA;" ++ nl ]%string
  ++ map (fun e => (render_entity h e ++ nl)%string) es
  ++ [ "ENDSEC;" ++ nl; "END-ISO-10303-21;" ++ nl ]%string.

(** The host accepts every chunk of [chunks], written after [written]. *)
Fixpoint accepts (h : Host) (filename : string) (written chunks : list string) : bool :=
  match chunks with
  | [] => true
  | c :: cs => can_write h filename written c && accepts h filename (written ++ [c]) cs
  end.

(** [f.write] of each chunk in turn. *)
Definition write_chunks (h : Host) (filename : string) (chunks : list string) : M unit :=
  for_in chunks (fun c (_ : unit) => f_write h filename c) tt.

(** ** The records of one pass, as a function of the geometry

    These functions describe what the encoder appends, from the value [n] of
    the counter on; the lemmas below show that the methods compute them. *)

Definition with_self (w : World) (g : STEPGenerator) : World :=
  mkWorld g (geometry w) (files w).

Definition emit (w : World) (new : list entity) : World :=
  with_self w (mkSTEPGenerator (entity_counter (generator w) + List.length new)
                               (entities (generator w) ++ new)).

Definition point_record (n : nat) (p : Point3D) : entity :=
  mkEntity n "CARTESIAN_POINT" [ALabel EmptyString; ACoords (x p) (y p) (z p)].

Definition sq_norm (l : Line3D) : float :=
  let dx := (x (end_ l) - x (start l))%float in
  let dy := (y (end_ l) - y (start l))%float in
  let dz := (z (end_ l) - z (start l))%float in
  (dx * dx + dy * dy + dz * dz)%float.

Definition magnitude_of (l : Line3D) : float := sqrt (sq_norm l).

Definition drawn (l : Line3D) : bool := (0 <? magnitude_of l)%float.

Definition line_records (n : nat) (l : Line3D) : list entity :=
  let m := magnitude_of l in
  point_record n (start l) ::
  (if drawn l then
     [ mkEntity (n + 1) "DIRECTION"
         [ALabel EmptyString;
          ACoords ((x (end_ l) - x (start l)) / m)%float
                  ((y (end_ l) - y (start l)) / m)%float
                  ((z (end_ l) - z (start l)) / m)%float];
       mkEntity (n + 2) "VECTOR" [ALabel EmptyString; ARef (n + 1); ANum m];
       mkEntity (n + 3) "LINE" [ALabel EmptyString; ARef n; ARef (n + 2)] ]
   else []).

Fixpoint points_records (n : nat) (ps : list Point3D) : list entity :=
  match ps with
  | [] => []
  | p :: ps' => point_record n p :: points_records (S n) ps'
  end.

Fixpoint lines_records (n : nat) (ls : list Line3D) : list entity :=
  match ls with
  | [] => []
  | l :: ls' =>
      line_records n l ++ lines_records (n + List.length (line_records n l)) ls'
  end.

Fixpoint endpoint_records (n : nat) (ls : list Line3D) : list entity :=
  match ls with
  | [] => []
  | l :: ls' =>
      point_record n (start l) :: point_record (n + 1) (end_ l)
        :: endpoint_records (n + 2) ls'
  end.

Definition surface_records (n : nat) (ls : list Line3D) : list entity :=
  if 3 <=? List.length ls then
    let k := 2 * List.length (firstn 4 ls) in
    endpoint_records n (firstn 4 ls)
      ++ [ mkEntity (n + k) "DIRECTION" [ALabel EmptyString; ACoords 0 0 1];
           mkEntity (n + k + 1) "PLANE" [ALabel EmptyString; ARef n; ARef (n + k)] ]
  else [].

Definition fold_min (v : float) (vs : list float) : float :=
  fold_left (fun cur item => if (item <? cur)%float then item else cur) vs v.

Definition fold_max (v : float) (vs : list float) : float :=
  fold_left (fun cur item => if (cur <? item)%float then item else cur) vs v.

Definition bounding_box (ps : list Point3D) : Point3D * Point3D :=
  match ps with
  | [] => (mkPoint3D 0 0 0, mkPoint3D 0 0 0)
  | p :: ps' =>
      (mkPoint3D (fold_min (x p) (map x ps')) (fold_min (y p) (map y ps'))
                 (fold_min (z p) (map z ps')),
       mkPoint3D (fold_max (x p) (map x ps')) (fold_max (y p) (map y ps'))
                 (fold_max (z p) (map z ps')))
  end.

Definition block_records (n : nat) (ps : list Point3D) : list entity :=
  let '(lo, hi) := bounding_box ps in
  [ point_record n (mkPoint3D (x lo) (y lo) (z lo));
    point_record (n + 1) (mkPoint3D (x hi) (y lo) (z lo));
    point_record (n + 2) (mkPoint3D (x hi) (y hi) (z lo));
    point_record (n + 3) (mkPoint3D (x lo) (y hi) (z lo));
    point_record (n + 4) (mkPoint3D (x lo) (y lo) (z hi));
    point_record (n + 5) (mkPoint3D (x hi) (y lo) (z hi));
    point_record (n + 6) (mkPoint3D (x hi) (y hi) (z hi));
    point_record (n + 7) (mkPoint3D (x lo) (y hi) (z hi));
    mkEntity (n + 8) "BLOCK"
      [ALabel EmptyString; ARef n;
       ANum (x hi - x lo)%float; ANum (y hi - y lo)%float; ANum (z hi - z lo)%float] ].

Definition solid_records (n : nat) (ps : list Point3D) (ls : list Line3D) : list entity :=
  if 3 <=? List.length ls then block_records n ps else [].

Definition all_records (ps : list Point3D) (ls : list Line3D) : list entity :=
  let r2 := points_records 1 ps in
  let r3 := lines_records (1 + List.length r2) ls in
  let r4 := surface_records (1 + List.length r2 + List.length r3) ls in
  let r5 := solid_records (1 + List.length r2 + List.length r3 + List.length r4) ps ls in
  r2 ++ r3 ++ r4 ++ r5.

(** The records [es] carry the identifiers from [n] on, and each refers
    only to identifiers from [lo] on and below its own. *)
Definition numbered (lo n : nat) (es : list entity) : Prop :=
  ids_from n es /\
  Forall (fun e => Forall (fun r => lo <= r < e_id e) (refs e)) es.

(** The contribution of one record of type [t'] to the count of type [t]. *)
Definition hit (t t' : string) : nat := if String.eqb t' t then 1 else 0.

(** Evaluate the comparisons of type names. *)
Ltac eval_hits :=
  repeat match goal with
         | |- context [hit ?a ?b] =>
             let v := eval vm_compute in (hit a b) in change (hit a b) with v
         end.

(** ** Sign classes of binary64 values *)

(** Zero, a positive number, plus infinity or NaN: not less than zero. *)
Definition nonneg (f : spec_float) : Prop :=
  match f with
  | S754_infinity true | S754_finite true _ _ => False
  | _ => True
  end.

(** Zero of either sign, or NaN. *)
Definition null (f : spec_float) : Prop :=
  match f with
  | S754_zero _ | S754_nan => True
  | _ => False
  end.

(** ** Sample inputs *)

Definition origin : Point3D := mkPoint3D 0 0 0.

(** One point and one segment of length 10 along the x axis. *)
Definition one_segment_set : B1Entity :=
  mkB1Entity [origin] [mkLine3D origin (mkPoint3D 10 0 0)] "B1".

(** Three segments, each from a point to itself. *)
Definition degenerate_set : B1Entity :=
  mkB1Entity [mkPoint3D 1 2 3]
    [mkLine3D origin origin;
     mkLine3D (mkPoint3D 1 2 3) (mkPoint3D 1 2 3);
     mkLine3D (mkPoint3D 5 5 5) (mkPoint3D 5 5 5)] "B1".

(** The unit square in the plane z = 0: four segments of length 1. *)
Definition square_set : B1Entity :=
  mkB1Entity
    [origin; mkPoint3D 1 0 0; mkPoint3D 1 1 0; mkPoint3D 0 1 0]
    [mkLine3D origin (mkPoint3D 1 0 0);
     mkLine3D (mkPoint3D 1 0 0) (mkPoint3D 1 1 0);
     mkLine3D (mkPoint3D 1 1 0) (mkPoint3D 0 1 0);
     mkLine3D (mkPoint3D 0 1 0) origin] "B1".

Definition fresh_generator : STEPGenerator := mkSTEPGenerator 1 [].

Definition no_files : string -> option (list string) := fun _ => None.

(** A host whose disk takes everything. *)
Definition willing_host : Host :=
  mkHost (fun _ => "0.0") "2024-01-01T00:00:00" (fun _ => true) (fun _ _ _ => true).

(** A host on which no file can be opened. *)
Definition readonly_host : Host :=
  mkHost (fun _ => "0.0") "2024-01-01T00:00:00" (fun _ => false) (fun _ _ _ => true).

(** A host whose disk is full after three chunks. *)
Definition full_disk_host : Host :=
  mkHost (fun _ => "0.0") "2024-01-01T00:00:00" (fun _ => true)
         (fun _ written _ => List.length written <? 3).

(** ** Order of binary64 values *)

(** A place on the number line for every value but NaN: class, then
    exponent, then mantissa, mirrored for negative numbers. *)
Definition rank (f : spec_float) : Z * Z * Z :=
  match f with
  | S754_nan => (0, 0, 0)%Z
  | S754_infinity true => (-2, 0, 0)%Z
  | S754_finite true m e => (-1, - e, Z.neg m)%Z
  | S754_zero _ => (0, 0, 0)%Z
  | S754_finite false m e => (1, e, Z.pos m)%Z
  | S754_infinity false => (2, 0, 0)%Z
  end.

Definition rank_lt (a b : Z * Z * Z) : Prop :=
  let '(a1, a2, a3) := a in
  let '(b1, b2, b3) := b in
  (a1 < b1 \/ (a1 = b1 /\ (a2 < b2 \/ (a2 = b2 /\ a3 < b3))))%Z.

Definition is_nan_sf (f : spec_float) : bool :=
  match f with S754_nan => true | _ => false end.

(** ** B1Entity: construction

    The methods update the object they are called on; they are given as
    functions from the object before to the object after. *)

(** [B1Entity.__init__] *)
Definition B1Entity_init : B1Entity := mkB1Entity [] [] "B1".

Definition add_point (self : B1Entity) (point : Point3D) : B1Entity :=
  mkB1Entity (points self ++ [point]) (lines self) (name self).

Definition add_line (self : B1Entity) (line : Line3D) : B1Entity :=
  mkB1Entity (points self) (lines self ++ [line]) (name self).

(** [item] replaces [cur] in [min] and in [max]. *)
Definition min_step (cur item : float) : float :=
  if (item <? cur)%float then item else cur.

Definition max_step (cur item : float) : float :=
  if (cur <? item)%float then item else cur.

(** [p] is not outside the box of corners [lo] and [hi], coordinate by
    coordinate, in Python's [<]. *)
Definition inside (lo hi p : Point3D) : Prop :=
  (x p <? x lo)%float = false /\ (x hi <? x p)%float = false /\
  (y p <? y lo)%float = false /\ (y hi <? y p)%float = false /\
  (z p <? z lo)%float = false /\ (z hi <? z p)%float = false.

(** ** Consistency of an encoder

    The counter is one above the number of records, the records carry the
    identifiers 1, 2, ... in order, and references point backward. *)
Definition well_formed (g : STEPGenerator) : Prop :=
  entity_counter g = 1 + List.length (entities g) /\
  ids_from 1 (entities g) /\
  backward_refs (entities g).

(** A segment of length zero between two different points. *)
Definition tiny_segment : Line3D :=
  mkLine3D (mkPoint3D 0 0 0) (mkPoint3D 0x1p-600 0 0).

(** A segment whose squared length exceeds the binary64 range. *)
Definition huge_segment : Line3D :=
  mkLine3D (mkPoint3D 0 0 0) (mkPoint3D 0x1p600 0 0).

(** The test [magnitude > 0] of the segment loop. *)
Definition positive_length (l : Line3D) : bool :=
  match length_ l with
  | Ok m => (0 <? m)%float
  | Raise _ => false
  end.

(** [1] from three segments on, else [0]. *)
Definition threshold (ls : list Line3D) : nat :=
  if 3 <=? List.length ls then 1 else 0.

(** From [w] the step [m] raises nothing, only appends records, and leaves
    a consistent encoder. *)
Definition appends {A} (m : M A) (w : World) : Prop :=
  (exists a, fst (m w) = Ok a) /\
  (exists new, entities (generator (snd (m w))) = entities (generator w) ++ new) /\
  well_formed (generator (snd (m w))).

(** The type of the record that carries the identifier [id]. *)
Definition record_type (es : list entity) (id : nat) : option string :=
  option_map e_type (find (fun e => e_id e =? id) es).

(** The types of the records an entity refers to, in the order of its
    attributes: the parameters of [_vector] and [_line], and the PLANE and
    BLOCK built in the surface and solid steps. *)
Definition expected_refs (t : string) : list string :=
  if String.eqb t "VECTOR" then ["DIRECTION"]
  else if String.eqb t "LINE" then ["CARTESIAN_POINT"; "VECTOR"]
  else if String.eqb t "PLANE" then ["CARTESIAN_POINT"; "DIRECTION"]
  else if String.eqb t "BLOCK" then ["CARTESIAN_POINT"]
  else [].

Definition refs_typed (es : list entity) (e : entity) : Prop :=
  map (record_type es) (refs e) = map Some (expected_refs (e_type e)).

(** Between [pre] and anything after, the references of [piece] are typed. *)
Definition located (pre piece : list entity) : Prop :=
  forall post, Forall (refs_typed (pre ++ piece ++ post)) piece.

(** A line of the data section starts with [#]. *)
Definition is_data_line (s : string) : bool :=
  match s with
  | String c _ => Ascii.eqb c "#"
  | EmptyString => false
  end.

(** ** B1Loader.from_csv, of [advanced_step_generator.py]

    What the loader gets from the Python runtime: the lines of a file
    ([open(filename, 'r')] and [f.readlines()], nothing when either raises),
    [str.strip], [str.upper], and [float] of a string (nothing when it raises
    ValueError). *)
Record Reader : Type := mkReader {
  read_lines : string -> option (list string);
  str_strip : string -> string;
  str_upper : string -> string;
  to_float : string -> option float
}.

(** [line.split(',')] *)
Fixpoint split_comma (s : string) : list string :=
  match s with
  | EmptyString => [EmptyString]
  | String c s' =>
      if Ascii.eqb c "," then EmptyString :: split_comma s'
      else match split_comma s' with
           | part :: parts => String c part :: parts
           | [] => [String c EmptyString]
           end
  end.

(** [float(parts[i])] *)
Definition csv_field (rd : Reader) (parts : list string) (i : nat) : result float :=
  match nth_error parts i with
  | None => Raise IndexError
  | Some s =>
      match to_float rd s with
      | Some v => Ok v
      | None => Raise ValueError
      end
  end.

(** [current_section == name] *)
Definition section_is (current_section : option string) (name : string) : bool :=
  match current_section with
  | Some s => String.eqb s name
  | None => false
  end.

(** The body of [for line in lines], on the set being built and the current
    section. *)
Definition csv_line (rd : Reader) (raw : string) (st : B1Entity * option string)
  : result (B1Entity * option string) :=
  let '(b1, current_section) := st in
  let line := str_strip rd raw in
  if String.eqb line EmptyString || String.prefix "#" line then Ok (b1, current_section)
  else if String.eqb (str_upper rd line) "POINTS" then Ok (b1, Some "points")
  else if String.eqb (str_upper rd line) "LINES" then Ok (b1, Some "lines")
  else if section_is current_section "points" then
    let parts := split_comma line in
    if 3 <=? List.length parts then
      rbind (csv_field rd parts 0) (fun x =>
      rbind (csv_field rd parts 1) (fun y =>
      rbind (csv_field rd parts 2) (fun z =>
      Ok (add_point b1 (mkPoint3D x y z), current_section))))
    else Ok (b1, current_section)
  else if section_is current_section "lines" then
    let parts := split_comma line in
    if 6 <=? List.length parts then
      rbind (csv_field rd parts 0) (fun x1 =>
      rbind (csv_field rd parts 1) (fun y1 =>
      rbind (csv_field rd parts 2) (fun z1 =>
      rbind (csv_field rd parts 3) (fun x2 =>
      rbind (csv_field rd parts 4) (fun y2 =>
      rbind (csv_field rd parts 5) (fun z2 =>
      let start := mkPoint3D x1 y1 z1 in
      let end_ := mkPoint3D x2 y2 z2 in
      Ok (add_line b1 (mkLine3D start end_), current_section)))))))
    else Ok (b1, current_section)
  else Ok (b1, current_section).

Fixpoint csv_loop (rd : Reader) (lines : list string) (st : B1Entity * option string)
  : result (B1Entity * option string) :=
  match lines with
  | [] => Ok st
  | raw :: lines' => rbind (csv_line rd raw st) (csv_loop rd lines')
  end.

(** [try: ... return b1] and [except Exception: return None] *)
Definition from_csv (rd : Reader) (filename : string) : option B1Entity :=
  let b1 := B1Entity_init in
  match read_lines rd filename with
  | None => None
  | Some lines =>
      match csv_loop rd lines (b1, None) with
      | Ok (b1, _) => Some b1
      | Raise _ => None
      end
  end.

(** The line is neither blank nor a comment and names a section. *)
Definition names_section (rd : Reader) (raw : string) : bool :=
  let line := str_strip rd raw in
  negb (String.eqb line EmptyString || String.prefix "#" line)
  && (String.eqb (str_upper rd line) "POINTS" || String.eqb (str_upper rd line) "LINES").

(** The line is neither blank, nor a comment, nor a section name. *)
Definition is_data (rd : Reader) (raw : string) : bool :=
  let line := str_strip rd raw in
  negb (String.eqb line EmptyString || String.prefix "#" line)
  && negb (String.eqb (str_upper rd line) "POINTS")
  && negb (String.eqb (str_upper rd line) "LINES").

(** A reader that strips and capitalises nothing, knows the numbers 0, 1 and
    2, and has two files. *)
Definition sample_reader : Reader :=
  mkReader
    (fun f => if String.eqb f "full.csv"
              then Some ["junk,before"; "POINTS"; "0,1,2"; "1,1"; "LINES"; "0,0,0,1,1,1,9"]
              else if String.eqb f "bare.csv"
              then Some ["POINTS"; "0,1,2"; "1,1"; "LINES"; "0,0,0,1,1,1,9"]
              else if String.eqb f "bad.csv"
              then Some ["POINTS"; "0,1,2"; "0,x,2"; "1,1,1"]
              else None)
    (fun s => s)
    (fun s => s)
    (fun s => if String.eqb s "0" then Some 0%float
              else if String.eqb s "1" then Some 1%float
              else if String.eqb s "2" then Some 2%float
              else None).

(** * Facts about binary64 arithmetic *)

Lemma round_aux_sign s m e l :
  match binary_round_aux prec emax s m e l with
  | S754_infinity s' | S754_finite s' _ _ => s' = s
  | _ => True
  end.
Proof.
  unfold binary_round_aux.
  destruct (shr_fexp prec emax m e l) as [mrs' e'].
  destruct (shr_fexp prec emax _ e' loc_Exact) as [mrs'' e''].
  destruct (shr_m mrs''); trivial.
  destruct (Z.leb e'' (emax - prec)); reflexivity.
Qed.

Lemma round_aux_nonneg m e l : nonneg (binary_round_aux prec emax false m e l).
Proof.
  pose proof (round_aux_sign false m e l) as H.
  destruct (binary_round_aux prec emax false m e l); simpl; trivial; subst; trivial.
Qed.

Lemma mul_self_nonneg X : nonneg (SF64mul X X).
Proof.
  destruct X as [s|s| |s m e]; simpl; trivial.
  - destruct s; exact I.
  - replace (xorb s s) with false by (destruct s; reflexivity).
    apply round_aux_nonneg.
Qed.

Lemma add_nonneg X Y : nonneg X -> nonneg Y -> nonneg (SF64add X Y).
Proof.
  destruct X as [[]|[]| |[] mx ex], Y as [[]|[]| |[] my ey]; simpl; trivial; try contradiction.
  intros _ _. unfold binary_normalize. simpl.
  unfold binary_round.
  destruct (shl_align _ _ _) as [mz ez] eqn:E. 
  apply round_aux_nonneg.
Qed.

Lemma nonneg_not_lt_zero X : nonneg X -> SFltb X (S754_zero false) = false.
Proof. destruct X as [[]|[]| |[] m e]; simpl; trivial; contradiction. Qed.

Lemma zero_sf : Prim2SF 0 = S754_zero false.
Proof. reflexivity. Qed.

Lemma sum_squares_not_negative a b c : ((a * a + b * b + c * c) <? 0)%float = false.
Proof.
  rewrite ltb_spec, zero_sf, !add_spec, !mul_spec.
  apply nonneg_not_lt_zero.
  repeat apply add_nonneg; apply mul_self_nonneg.
Qed.

Lemma positive_not_zero m : (0 <? m)%float = true -> (m =? 0)%float = false.
Proof.
  rewrite ltb_spec, eqb_spec, zero_sf.
  destruct (Prim2SF m) as [[]|[]| |[] mm e]; cbv; congruence.
Qed.

Lemma sqrt_nonneg X : nonneg (SF64sqrt X).
Proof.
  destruct X as [[]|[]| |[] m e]; simpl; trivial.
  destruct (SFsqrt_core_binary prec emax (Z.pos m) e) as [[mz ez] lz].
  apply round_aux_nonneg.
Qed.

(** A square root that is a number other than zero is greater than zero. *)
Lemma sqrt_positive v :
  is_nan (sqrt v) = false -> (sqrt v =? 0)%float = false -> (0 <? sqrt v)%float = true.
Proof.
  unfold is_nan. rewrite ltb_spec, !eqb_spec, zero_sf, sqrt_spec.
  pose proof (sqrt_nonneg (Prim2SF v)) as H.
  destruct (SF64sqrt (Prim2SF v)) as [[]|[]| |[] m e]; simpl in H; try contradiction;
    cbv; try congruence.
Qed.

Lemma sub_self_null X : null (SF64sub X X).
Proof.
  destruct X as [[]|[]| |s m e]; simpl; trivial.
  rewrite Z.sub_diag. exact I.
Qed.

Lemma eqb_cases X Y :
  SFeqb X Y = true ->
  X = Y \/ exists s s', X = S754_zero s /\ Y = S754_zero s'.
Proof.
  unfold SFeqb.
  destruct X as [sx|[]| |[] mx ex], Y as [sy|[]| |[] my ey];
    simpl; try discriminate; auto.
  - right. eauto.
  - destruct (Z.compare ex ey) eqn:E; try discriminate.
    apply Z.compare_eq in E. subst.
    destruct (Pos.compare_cont Eq mx my) eqn:E'; try discriminate.
    apply Pos.compare_eq in E'. subst. auto.
  - destruct (Z.compare ex ey) eqn:E; try discriminate.
    apply Z.compare_eq in E. subst.
    destruct (Pos.compare_cont Eq mx my) eqn:E'; try discriminate.
    apply Pos.compare_eq in E'. subst. auto.
Qed.

Lemma sub_equal_null a b : a = b \/ (a =? b)%float = true -> null (Prim2SF (b - a)).
Proof.
  rewrite sub_spec, eqb_spec. intros [->|H].
  - apply sub_self_null.
  - destruct (eqb_cases _ _ H) as [->|(s & s' & -> & ->)].
    + apply sub_self_null.
    + destruct s, s'; exact I.
Qed.

Lemma mul_null X : null X -> null (SF64mul X X).
Proof. destruct X as [[]|[]| |[] m e]; simpl; tauto. Qed.

Lemma add_null X Y : null X -> null Y -> null (SF64add X Y).
Proof. destruct X as [[]|[]| |[] m e], Y as [[]|[]| |[] m' e']; simpl; tauto. Qed.

Lemma sqrt_null X : null X -> null (SF64sqrt X).
Proof. destruct X as [[]|[]| |[] m e]; simpl; tauto. Qed.

Lemma null_not_positive X : null X -> SFltb (S754_zero false) X = false.
Proof. destruct X as [[]|[]| |[] m e]; simpl; trivial; contradiction. Qed.

Lemma equal_ends_not_drawn l :
  same_coordinates (start l) (end_ l) -> drawn l = false.
Proof.
  intros H. unfold drawn, magnitude_of, sq_norm.
  assert (Hx : null (Prim2SF (x (end_ l) - x (start l)))).
  { apply sub_equal_null. destruct H as [->|H]; auto.
    apply andb_prop in H as [H _]. apply andb_prop in H as [H _]. auto. }
  assert (Hy : null (Prim2SF (y (end_ l) - y (start l)))).
  { apply sub_equal_null. destruct H as [->|H]; auto.
    apply andb_prop in H as [H _]. apply andb_prop in H as [_ H]. auto. }
  assert (Hz : null (Prim2SF (z (end_ l) - z (start l)))).
  { apply sub_equal_null. destruct H as [->|H]; auto.
    apply andb_prop in H as [_ H]. auto. }
  rewrite ltb_spec, zero_sf, sqrt_spec, !add_spec, !mul_spec.
  apply null_not_positive, sqrt_null.
  repeat apply add_null; apply mul_null; assumption.
Qed.

(** * The store monad *)

Lemma bind_ok {A B} (m : M A) (k : A -> M B) w a w' :
  m w = (Ok a, w') -> bind m k w = k a w'.
Proof. unfold bind. intros ->. reflexivity. Qed.

Lemma emit_nil w : emit w [] = w.
Proof.
  destruct w as [[c es] b fs]. unfold emit, with_self. simpl.
  rewrite Nat.add_0_r, app_nil_r. reflexivity.
Qed.

Lemma emit_app w a b : emit (emit w a) b = emit w (a ++ b).
Proof.
  unfold emit, with_self. simpl.
  rewrite length_app, Nat.add_assoc, app_assoc. reflexivity.
Qed.

Lemma emit_counter w new :
  entity_counter (generator (emit w new)) = entity_counter (generator w) + List.length new.
Proof. reflexivity. Qed.

(** * What each method appends *)

Lemma add_entity_run t attrs w :
  _add_entity t attrs w
  = (Ok (entity_counter (generator w)),
     emit w [mkEntity (entity_counter (generator w)) t attrs]).
Proof. reflexivity. Qed.

Lemma cartesian_point_run p w :
  _cartesian_point p w
  = (Ok (entity_counter (generator w)),
     emit w [point_record (entity_counter (generator w)) p]).
Proof. reflexivity. Qed.

Lemma length_run l : length_ l = Ok (magnitude_of l).
Proof.
  unfold length_, math_sqrt. rewrite sum_squares_not_negative. reflexivity.
Qed.

Lemma process_line_run l ids w :
  process_line l ids w
  = (Ok (ids ++ if drawn l then [entity_counter (generator w) + 3] else []),
     emit w (line_records (entity_counter (generator w)) l)).
Proof.
  unfold process_line.
  erewrite bind_ok by apply cartesian_point_run.
  erewrite bind_ok by (unfold lift; rewrite length_run; reflexivity).
  unfold line_records. fold (drawn l).
  destruct (drawn l) eqn:D.
  - unfold drawn in D. apply positive_not_zero in D.
    unfold float_div, lift. rewrite D.
    unfold bind at 1. unfold bind at 1. unfold bind at 1.
    unfold _direction, _vector, _line.
    erewrite bind_ok by apply add_entity_run.
    erewrite bind_ok by apply add_entity_run.
    erewrite bind_ok by apply add_entity_run.
    unfold ret. rewrite !emit_app. reflexivity.
  - unfold ret. rewrite app_nil_r. reflexivity.
Qed.

Lemma points_loop_run ps : forall ids w,
  for_in ps (fun point point_ids =>
               point_id <- _cartesian_point point ;;
               ret (point_ids ++ [point_id])) ids w
  = (Ok (ids ++ seq (entity_counter (generator w)) (List.length ps)),
     emit w (points_records (entity_counter (generator w)) ps)).
Proof.
  induction ps as [|p ps IH]; intros ids w; simpl.
  - unfold ret. rewrite app_nil_r, emit_nil. reflexivity.
  - erewrite bind_ok
      by (erewrite bind_ok by apply cartesian_point_run; reflexivity).
    rewrite IH, emit_app, emit_counter. simpl.
    rewrite Nat.add_1_r, <- app_assoc. reflexivity.
Qed.

Lemma lines_loop_run ls : forall ids w,
  exists ids',
    for_in ls process_line ids w
    = (Ok ids', emit w (lines_records (entity_counter (generator w)) ls)).
Proof.
  induction ls as [|l ls IH]; intros ids w; simpl.
  - exists ids. unfold ret. rewrite emit_nil. reflexivity.
  - erewrite bind_ok by apply process_line_run.
    destruct (IH (ids ++ (if drawn l then [entity_counter (generator w) + 3] else []))
                 (emit w (line_records (entity_counter (generator w)) l))) as [ids' E].
    exists ids'. rewrite E, emit_app, emit_counter. reflexivity.
Qed.

Lemma endpoint_records_length ls : forall n,
  List.length (endpoint_records n ls) = 2 * List.length ls.
Proof. induction ls as [|l ls IH]; intros n; simpl; [reflexivity|rewrite IH; lia]. Qed.

Lemma endpoints_loop_run ls : forall ids w,
  for_in ls (fun line point_ids =>
               start_id <- _cartesian_point (start line) ;;
               end_id <- _cartesian_point (end_ line) ;;
               ret (point_ids ++ [start_id; end_id])) ids w
  = (Ok (ids ++ seq (entity_counter (generator w)) (2 * List.length ls)),
     emit w (endpoint_records (entity_counter (generator w)) ls)).
Proof.
  induction ls as [|l ls IH]; intros ids w; simpl.
  - unfold ret. rewrite app_nil_r, emit_nil. reflexivity.
  - erewrite bind_ok
      by (erewrite bind_ok by apply cartesian_point_run;
          erewrite bind_ok by apply cartesian_point_run; reflexivity).
    rewrite IH, !emit_app, !emit_counter. simpl.
    rewrite <- app_assoc. simpl.
    replace (List.length ls + S (List.length ls + 0)) with (S (2 * List.length ls)) by lia.
    simpl. rewrite !Nat.add_1_r.
    replace (entity_counter (generator w) + 2) with (S (S (entity_counter (generator w)))) by lia.
    reflexivity.
Qed.

Lemma firstn4_length (ls : list Line3D) :
  3 <= List.length ls -> 3 <= List.length (firstn 4 ls) <= 4.
Proof. rewrite length_firstn. lia. Qed.

Lemma surfaces_run w :
  let c := entity_counter (generator w) in
  let ls := lines (geometry w) in
  _generate_surfaces_from_lines w
  = (Ok (if 3 <=? List.length ls then [c + 2 * List.length (firstn 4 ls) + 1] else []),
     emit w (surface_records c ls)).
Proof.
  intros c ls. unfold _generate_surfaces_from_lines, surface_records.
  unfold bind at 1. unfold get_b1. fold ls.
  destruct (3 <=? List.length ls) eqn:E.
  - apply Nat.leb_le in E. pose proof (firstn4_length ls E) as F.
    set (fl := firstn 4 ls) in *. clearbody fl.
    erewrite bind_ok by apply endpoints_loop_run. fold c. cbn [app].
    rewrite length_seq.
    replace (4 <=? 2 * List.length fl) with true
      by (symmetry; apply Nat.leb_le; lia).
    assert (I0 : forall w', index (seq c (2 * List.length fl)) 0 w' = (Ok c, w')).
    { intros w'. unfold index.
      destruct (List.length fl) as [|k]; [lia|]. reflexivity. }
    erewrite bind_ok by apply I0.
    unfold _direction.
    erewrite bind_ok by apply add_entity_run.
    erewrite bind_ok by apply add_entity_run.
    unfold ret. rewrite !emit_app, !emit_counter.
    rewrite length_app. simpl List.length.
    rewrite endpoint_records_length. fold c. cbn [app].
    rewrite <- app_assoc, !Nat.add_assoc. reflexivity.
  - unfold ret. rewrite emit_nil. reflexivity.
Qed.

Lemma bounding_box_run b : get_bounding_box b = Ok (bounding_box (points b)).
Proof.
  unfold get_bounding_box, bounding_box.
  destruct (points b) as [|p ps]; reflexivity.
Qed.

Lemma solid_run sids w :
  let c := entity_counter (generator w) in
  _generate_solid_from_surfaces sids w
  = match sids with
    | [] => (Ok None, w)
    | _ :: _ => (Ok (Some (c + 8)), emit w (block_records c (points (geometry w))))
    end.
Proof.
  intros c. destruct sids as [|s sids]; [reflexivity|].
  unfold _generate_solid_from_surfaces, block_records.
  unfold bind at 1. unfold get_b1.
  erewrite bind_ok by (unfold lift; rewrite bounding_box_run; reflexivity).
  destruct (bounding_box (points (geometry w))) as [lo hi].
  erewrite bind_ok by apply points_loop_run.
  fold c. cbn [app List.length seq points_records].
  erewrite bind_ok by reflexivity.
  erewrite bind_ok by apply add_entity_run.
  unfold ret. rewrite !emit_app, !emit_counter. fold c.
  cbn [app List.length].
  repeat (f_equal; try lia).
Qed.

Lemma process_points_run w :
  process_points w
  = (Ok (seq (entity_counter (generator w)) (List.length (points (geometry w)))),
     emit w (points_records (entity_counter (generator w)) (points (geometry w)))).
Proof.
  unfold process_points. unfold bind at 1. unfold get_b1.
  apply points_loop_run.
Qed.

Lemma process_lines_run w :
  exists ids,
    process_lines w
    = (Ok ids, emit w (lines_records (entity_counter (generator w)) (lines (geometry w)))).
Proof.
  unfold process_lines. unfold bind at 1. unfold get_b1.
  apply lines_loop_run.
Qed.

Lemma generate_run h filename w :
  let b := geometry w in
  let R := all_records (points b) (lines b) in
  generate_step_file h filename w
  = _write_step_file h filename
      (with_self w (mkSTEPGenerator (1 + List.length R) R)).
Proof.
  intros b R. unfold generate_step_file.
  do 4 (unfold bind at 1; cbn [get_self set_self generator geometry files entity_counter entities]).
  set (w0 := mkWorld (mkSTEPGenerator 1 []) (geometry w) (files w)).
  erewrite bind_ok by apply process_points_run.
  change (geometry w0) with b.
  change (entity_counter (generator w0)) with 1.
  destruct (process_lines_run (emit w0 (points_records 1 (points b)))) as [ids E].
  erewrite bind_ok by apply E.
  erewrite bind_ok by apply surfaces_run.
  unfold bind at 1. rewrite solid_run.
  rewrite !emit_app, !emit_counter.
  change (geometry (emit w0 _)) with b.
  change (entity_counter (generator w0)) with 1.
  unfold R, all_records, solid_records.
  set (r2 := points_records 1 (points b)).
  rewrite !length_app. fold r2.
  set (r3 := lines_records (1 + List.length r2) (lines b)).
  rewrite <- !Nat.add_assoc.
  rewrite (Nat.add_assoc 1 (List.length r2) (List.length r3)).
  set (r4 := surface_records (1 + List.length r2 + List.length r3) (lines b)).
  assert (W : forall new,
             emit w0 new = with_self w (mkSTEPGenerator (1 + List.length new) new))
    by reflexivity.
  destruct (3 <=? List.length (lines b)) eqn:G.
  - rewrite W. rewrite <- !app_assoc, !length_app.
    rewrite !Nat.add_assoc. reflexivity.
  - rewrite W. rewrite app_nil_r, <- !app_assoc.
    do 3 f_equal. rewrite !length_app. simpl. lia.
Qed.

(** * Writing the document *)

Lemma bind_cong {A B} (m : M A) (k1 k2 : A -> M B) w :
  (forall a w', m w = (Ok a, w') -> k1 a w' = k2 a w') ->
  bind m k1 w = bind m k2 w.
Proof. unfold bind. destruct (m w) as [[a|e] w']; auto. Qed.

Lemma bind_assoc {A B C} (m : M A) (f : A -> M B) (g : B -> M C) w :
  bind (bind m f) g w = bind m (fun a => bind (f a) g) w.
Proof. unfold bind. destruct (m w) as [[a|e] w']; reflexivity. Qed.

Section Writing.

Variable h : Host.
Variable filename : string.

Lemma open_w_objects w r w' :
  open_w h filename w = (r, w') ->
  generator w' = generator w /\ geometry w' = geometry w.
Proof.
  unfold open_w. destruct (can_open h filename); intros E; inversion E; auto.
Qed.

Lemma f_write_objects c w r w' :
  f_write h filename c w = (r, w') ->
  generator w' = generator w /\ geometry w' = geometry w.
Proof.
  unfold f_write. destruct (files w filename) as [written|].
  - destruct (can_write h filename written c); intros E; inversion E; auto.
  - intros E; inversion E; auto.
Qed.

Lemma entity_loop_as_chunks (k : M unit) rest es : forall w,
  (forall w', k w' = write_chunks h filename rest w') ->
  bind (for_in es (fun entity (_ : unit) =>
                     f_write h filename (render_entity h entity ++ nl)%string) tt)
       (fun _ => k) w
  = write_chunks h filename
      (map (fun e => (render_entity h e ++ nl)%string) es ++ rest) w.
Proof.
  unfold write_chunks.
  induction es as [|e es IH]; intros w K; simpl.
  - unfold bind, ret. apply K.
  - rewrite bind_assoc. apply bind_cong; intros [] w1 _.
    apply IH, K.
Qed.

(** One [f.write] on each side: the generator is still the one of [w]. *)
Ltac same_write w G :=
  let w' := fresh "w" in
  let H := fresh "H" in
  apply bind_cong; intros [] w' H;
  apply f_write_objects in H as [H _];
  rewrite G in H; clear G; rename H into G.

Lemma write_step_file_as_chunks w :
  _write_step_file h filename w
  = (open_w h filename ;;;
     write_chunks h filename (document h filename (entities (generator w)))) w.
Proof.
  unfold _write_step_file, write_chunks, document.
  apply bind_cong; intros [] w0 G. apply open_w_objects in G as [G _].
  cbn [app for_in].
  do 7 same_write w G.
  unfold bind at 1. unfold get_self. rewrite G.
  apply entity_loop_as_chunks.
  intros w'. unfold write_chunks. cbn [for_in].
  apply bind_cong; intros [] w8 _.
  unfold bind, ret. destruct (f_write h filename _ w8) as [[[]|err] w9]; reflexivity.
Qed.

Lemma write_chunks_run chunks : forall written w,
  files w filename = Some written ->
  let r := write_chunks h filename chunks w in
  generator (snd r) = generator w /\
  geometry (snd r) = geometry w /\
  fst r = (if accepts h filename written chunks then Ok tt else Raise WriteError) /\
  (accepts h filename written chunks = true ->
   files (snd r) filename = Some (written ++ chunks)).
Proof.
  unfold write_chunks.
  induction chunks as [|c cs IH]; intros written w F; simpl.
  - rewrite app_nil_r. auto.
  - assert (FW : f_write h filename c w
                 = if can_write h filename written c
                   then (Ok tt, mkWorld (generator w) (geometry w)
                                  (fun p => if String.eqb p filename
                                            then Some (written ++ [c]) else files w p))
                   else (Raise WriteError, w))
      by (unfold f_write; rewrite F; reflexivity).
    unfold bind. rewrite FW. clear FW.
    destruct (can_write h filename written c) eqn:C; simpl.
    + set (w1 := mkWorld _ _ _).
      assert (F1 : files w1 filename = Some (written ++ [c])).
      { unfold w1. simpl. rewrite String.eqb_refl. reflexivity. }
      destruct (IH _ _ F1) as (A & B & D & E).
      rewrite <- app_assoc in E.
      split; [exact A|split; [exact B|split; [exact D|exact E]]].
    + repeat split; auto. discriminate.
Qed.

Lemma write_step_file_run w :
  let doc := document h filename (entities (generator w)) in
  let r := _write_step_file h filename w in
  generator (snd r) = generator w /\
  geometry (snd r) = geometry w /\
  fst r = (if can_open h filename && accepts h filename [] doc
           then Ok tt else Raise WriteError) /\
  (fst r = Ok tt -> files (snd r) filename = Some doc) /\
  (can_open h filename = false -> files (snd r) = files w).
Proof.
  intros doc r. unfold r. rewrite write_step_file_as_chunks. fold doc.
  unfold bind, open_w.
  destruct (can_open h filename) eqn:O; simpl.
  - set (w1 := mkWorld _ _ _).
    assert (F1 : files w1 filename = Some []).
    { unfold w1. simpl. rewrite String.eqb_refl. reflexivity. }
    destruct (write_chunks_run doc [] w1 F1) as (A & B & D & E).
    repeat split; auto; try discriminate.
    intros K. rewrite D in K.
    destruct (accepts h filename [] doc) eqn:Acc; [|discriminate]. auto.
  - repeat split; auto. discriminate.
Qed.

End Writing.

(** * One pass of the encoder *)

Lemma generate_spec h filename w :
  let b := geometry w in
  let R := all_records (points b) (lines b) in
  let r := generate_step_file h filename w in
  generator (snd r) = mkSTEPGenerator (1 + List.length R) R /\
  geometry (snd r) = b /\
  fst r = (if can_open h filename && accepts h filename [] (document h filename R)
           then Ok tt else Raise WriteError) /\
  (fst r = Ok tt -> files (snd r) filename = Some (document h filename R)) /\
  (can_open h filename = false -> files (snd r) = files w).
Proof.
  intros b R r. unfold r. rewrite generate_run. fold b. fold R.
  apply (write_step_file_run h filename
           (with_self w (mkSTEPGenerator (1 + List.length R) R))).
Qed.

(** * Numbering of the records *)

Lemma numbered_nil lo n : numbered lo n [].
Proof. split; [reflexivity|constructor]. Qed.

Lemma numbered_app lo n a b :
  numbered lo n a -> numbered lo (n + List.length a) b -> numbered lo n (a ++ b).
Proof.
  intros [Ia Ra] [Ib Rb]. split.
  - unfold ids_from in *. rewrite map_app, length_app, seq_app, Ia, Ib. reflexivity.
  - apply Forall_app. split; assumption.
Qed.

Lemma numbered_weaken lo lo' n es :
  lo' <= lo -> numbered lo n es -> numbered lo' n es.
Proof.
  intros L [I R]. split; [exact I|].
  eapply Forall_impl; [|exact R]. intros e He.
  eapply Forall_impl; [|exact He]. simpl. intros r Hr. lia.
Qed.

Lemma numbered_point lo n p : numbered lo n [point_record n p].
Proof. split; [reflexivity|]. repeat constructor. Qed.

Lemma numbered_cons lo n e es :
  numbered lo n [e] -> numbered lo (n + 1) es -> numbered lo n (e :: es).
Proof. intros H1 H2. apply (numbered_app lo n [e] es H1 H2). Qed.

Lemma numbered_points lo ps : forall n, numbered lo n (points_records n ps).
Proof.
  induction ps as [|p ps IH]; intros n; simpl.
  - apply numbered_nil.
  - apply numbered_cons; [apply numbered_point|].
    rewrite Nat.add_1_r. apply IH.
Qed.

Lemma numbered_line n l : numbered n n (line_records n l).
Proof.
  unfold line_records. destruct (drawn l).
  - split; [unfold ids_from; simpl; repeat f_equal; lia|].
    unfold refs; simpl. repeat constructor; simpl; lia.
  - apply numbered_point.
Qed.

Lemma numbered_lines lo ls : forall n, lo <= n -> numbered lo n (lines_records n ls).
Proof.
  induction ls as [|l ls IH]; intros n L; cbn [lines_records].
  - apply numbered_nil.
  - apply numbered_app.
    + apply (numbered_weaken n); [exact L|apply numbered_line].
    + apply IH. lia.
Qed.

Lemma numbered_endpoints lo ls : forall n, numbered lo n (endpoint_records n ls).
Proof.
  induction ls as [|l ls IH]; intros n; simpl.
  - apply numbered_nil.
  - apply numbered_cons; [apply numbered_point|].
    apply numbered_cons; [apply numbered_point|].
    replace (n + 1 + 1) with (n + 2) by lia. apply IH.
Qed.

Lemma numbered_surface n ls : numbered n n (surface_records n ls).
Proof.
  unfold surface_records.
  destruct (3 <=? List.length ls) eqn:E; [|apply numbered_nil].
  apply Nat.leb_le in E. pose proof (firstn4_length ls E) as F.
  set (fl := firstn 4 ls) in *. clearbody fl.
  apply numbered_app; [apply numbered_endpoints|].
  rewrite endpoint_records_length.
  split; [unfold ids_from; simpl; repeat f_equal; lia|].
  unfold refs; simpl. repeat constructor; simpl; lia.
Qed.

Lemma numbered_block n ps : numbered n n (block_records n ps).
Proof.
  unfold block_records. destruct (bounding_box ps) as [lo hi].
  split; [unfold ids_from; simpl; repeat f_equal; lia|].
  unfold refs; simpl. repeat constructor; simpl; lia.
Qed.

Lemma numbered_solid n ps ls : numbered n n (solid_records n ps ls).
Proof.
  unfold solid_records.
  destruct (3 <=? List.length ls); [apply numbered_block|apply numbered_nil].
Qed.

Lemma numbered_all ps ls : numbered 1 1 (all_records ps ls).
Proof.
  unfold all_records.
  apply numbered_app; [apply numbered_points|].
  apply numbered_app; [apply numbered_lines; lia|].
  rewrite <- Nat.add_assoc at 1.
  apply numbered_app.
  - rewrite Nat.add_assoc. eapply numbered_weaken; [|apply numbered_surface]. lia.
  - rewrite !Nat.add_assoc. eapply numbered_weaken; [|apply numbered_solid]. lia.
Qed.

(** * Counting records by type *)

Lemma count_nil t : count_type t [] = 0.
Proof. reflexivity. Qed.

Lemma count_cons t e es :
  count_type t (e :: es) = hit t (e_type e) + count_type t es.
Proof.
  unfold count_type, hit. simpl.
  destruct (String.eqb (e_type e) t); reflexivity.
Qed.

Lemma count_app t a b : count_type t (a ++ b) = count_type t a + count_type t b.
Proof. unfold count_type. rewrite filter_app, length_app. reflexivity. Qed.

Lemma count_points t ps : forall n,
  count_type t (points_records n ps) = List.length ps * hit t "CARTESIAN_POINT".
Proof.
  induction ps as [|p ps IH]; intros n; cbn [points_records List.length].
  - reflexivity.
  - rewrite count_cons, IH. simpl. lia.
Qed.

Lemma count_line t n l :
  count_type t (line_records n l)
  = hit t "CARTESIAN_POINT"
    + (if drawn l then hit t "DIRECTION" + hit t "VECTOR" + hit t "LINE" else 0).
Proof.
  unfold line_records. destruct (drawn l);
    rewrite ?count_cons, count_nil; simpl; lia.
Qed.

Lemma count_lines t ls : forall n,
  count_type t (lines_records n ls)
  = List.length ls * hit t "CARTESIAN_POINT"
    + List.length (filter drawn ls)
      * (hit t "DIRECTION" + hit t "VECTOR" + hit t "LINE").
Proof.
  induction ls as [|l ls IH]; intros n; cbn [lines_records List.length filter].
  - reflexivity.
  - rewrite count_app, count_line, IH.
    destruct (drawn l); cbn [List.length]; lia.
Qed.

Lemma count_endpoints t ls : forall n,
  count_type t (endpoint_records n ls) = 2 * List.length ls * hit t "CARTESIAN_POINT".
Proof.
  induction ls as [|l ls IH]; intros n; cbn [endpoint_records List.length].
  - reflexivity.
  - rewrite !count_cons, IH. simpl. lia.
Qed.

Lemma count_surface t n ls :
  count_type t (surface_records n ls)
  = if 3 <=? List.length ls
    then 2 * Nat.min 4 (List.length ls) * hit t "CARTESIAN_POINT"
         + hit t "DIRECTION" + hit t "PLANE"
    else 0.
Proof.
  unfold surface_records. destruct (3 <=? List.length ls); [|reflexivity].
  rewrite count_app, count_endpoints, !count_cons, count_nil, length_firstn.
  simpl e_type. lia.
Qed.

Lemma count_block t n ps :
  count_type t (block_records n ps) = 8 * hit t "CARTESIAN_POINT" + hit t "BLOCK".
Proof.
  unfold block_records. destruct (bounding_box ps) as [lo hi].
  rewrite !count_cons, count_nil. simpl e_type. lia.
Qed.

Lemma count_all t ps ls :
  count_type t (all_records ps ls)
  = (List.length ps + List.length ls) * hit t "CARTESIAN_POINT"
    + List.length (filter drawn ls)
      * (hit t "DIRECTION" + hit t "VECTOR" + hit t "LINE")
    + (if 3 <=? List.length ls
       then (2 * Nat.min 4 (List.length ls) + 8) * hit t "CARTESIAN_POINT"
            + hit t "DIRECTION" + hit t "PLANE" + hit t "BLOCK"
       else 0).
Proof.
  unfold all_records, solid_records.
  rewrite !count_app, count_points, count_lines, count_surface.
  destruct (3 <=? List.length ls).
  - rewrite count_block. lia.
  - rewrite count_nil. lia.
Qed.

(** * The state after a call *)

Lemma generate_generator h filename w :
  generator (snd (generate_step_file h filename w))
  = let R := all_records (points (geometry w)) (lines (geometry w)) in
    mkSTEPGenerator (1 + List.length R) R.
Proof. apply (generate_spec h filename w). Qed.

Lemma generate_entities h filename w :
  entities (generator (snd (generate_step_file h filename w)))
  = all_records (points (geometry w)) (lines (geometry w)).
Proof. rewrite generate_generator. reflexivity. Qed.

Lemma nonzero_length_drawn l : nonzero_length l = true -> drawn l = true.
Proof.
  unfold nonzero_length, drawn. rewrite length_run. unfold magnitude_of.
  intros H. apply andb_prop in H as [N Z].
  apply negb_true_iff in N. apply negb_true_iff in Z.
  apply sqrt_positive; assumption.
Qed.

Lemma zero_length_not_drawn l : zero_length l = true -> drawn l = false.
Proof.
  unfold zero_length, drawn. rewrite length_run. intros Z.
  destruct (0 <? magnitude_of l)%float eqn:P; [|reflexivity].
  apply positive_not_zero in P. congruence.
Qed.

Lemma filter_none {A} (f : A -> bool) (xs : list A) :
  Forall (fun a => f a = false) xs -> filter f xs = [].
Proof.
  induction 1 as [|a xs Ha _ IH]; simpl; [reflexivity|].
  rewrite Ha, IH. reflexivity.
Qed.

Lemma points_records_length ps : forall n,
  List.length (points_records n ps) = List.length ps.
Proof. induction ps as [|p ps IH]; intros n; simpl; auto. Qed.

Lemma points_then_lines_run w :
  let c := entity_counter (generator w) in
  let b := geometry w in
  exists line_ids,
    (process_points ;;; process_lines) w
    = (Ok line_ids,
       emit w (points_records c (points b)
                 ++ lines_records (c + List.length (points b)) (lines b))).
Proof.
  intros c b. subst c b. erewrite bind_ok by apply process_points_run.
  destruct (process_lines_run
              (emit w (points_records (entity_counter (generator w))
                                      (points (geometry w))))) as [ids E].
  exists ids. rewrite E, emit_app, emit_counter, points_records_length. reflexivity.
Qed.

Lemma lines_records_all_drawn ls : forall n,
  Forall (fun l => drawn l = true) ls ->
  List.length (lines_records n ls) = 4 * List.length ls.
Proof.
  induction ls as [|l ls IH]; intros n F; cbn [lines_records List.length].
  - reflexivity.
  - inversion F as [|? ? Dl F']; subst.
    rewrite length_app, (IH _ F'). unfold line_records. rewrite Dl. simpl. lia.
Qed.

(** * Properties of the encoder *)

(** C1. After one call of [generate_step_file] the records carry the
    identifiers 1, 2, ..., K in order, without gap or repetition, the counter
    stands at K + 1, and every identifier a record refers to is at least 1
    and strictly below the record's own. *)
Theorem ids_sequential_refs_backward h filename w :
  let g := generator (snd (generate_step_file h filename w)) in
  ids_from 1 (entities g) /\
  NoDup (map e_id (entities g)) /\
  entity_counter g = 1 + List.length (entities g) /\
  backward_refs (entities g).
Proof.
  intros g. unfold g. rewrite generate_generator. cbn [entities entity_counter].
  destruct (numbered_all (points (geometry w)) (lines (geometry w))) as [I R].
  repeat split; try assumption.
  rewrite I. apply seq_NoDup.
Qed.

(** C2. One call emits no PLANE and no BLOCK record when the set has fewer
    than 3 segments, and exactly one of each when it has 3 or more, whatever
    the number of segments. *)
Theorem plane_and_block_by_threshold h filename w :
  let es := entities (generator (snd (generate_step_file h filename w))) in
  let S := List.length (lines (geometry w)) in
  count_type "PLANE" es = (if S <? 3 then 0 else 1) /\
  count_type "BLOCK" es = (if S <? 3 then 0 else 1).
Proof.
  intros es S. unfold es. rewrite generate_entities, !count_all. fold S.
  eval_hits.
  destruct (3 <=? S) eqn:E.
  - apply Nat.leb_le in E. replace (S <? 3) with false by (symmetry; apply Nat.ltb_ge; lia). lia.
  - apply Nat.leb_gt in E. replace (S <? 3) with true by (symmetry; apply Nat.ltb_lt; lia). lia.
Qed.

(** C3. For the set with the single point (0,0,0) and the single segment
    from (0,0,0) to (10,0,0), one call produces exactly the five records
    CARTESIAN_POINT #1 (0,0,0), CARTESIAN_POINT #2 (0,0,0), DIRECTION #3
    (1,0,0), VECTOR #4 on #3 with magnitude 10 and LINE #5 on #2 and #4, hence
    no PLANE and no BLOCK record; a document that is written holds these five
    records between its header and its trailer. *)
Theorem one_segment_scenario h filename g fs set_name :
  let b := mkB1Entity [mkPoint3D 0 0 0]
                      [mkLine3D (mkPoint3D 0 0 0) (mkPoint3D 10 0 0)] set_name in
  let r := generate_step_file h filename (mkWorld g b fs) in
  let five :=
    [ mkEntity 1 "CARTESIAN_POINT" [ALabel EmptyString; ACoords 0 0 0];
      mkEntity 2 "CARTESIAN_POINT" [ALabel EmptyString; ACoords 0 0 0];
      mkEntity 3 "DIRECTION" [ALabel EmptyString; ACoords 1 0 0];
      mkEntity 4 "VECTOR" [ALabel EmptyString; ARef 3; ANum 10];
      mkEntity 5 "LINE" [ALabel EmptyString; ARef 2; ARef 4] ] in
  entities (generator (snd r)) = five /\
  List.length (entities (generator (snd r))) = 5 /\
  count_type "PLANE" (entities (generator (snd r))) = 0 /\
  count_type "BLOCK" (entities (generator (snd r))) = 0 /\
  (fst r = Ok tt -> files (snd r) filename = Some (document h filename five)).
Proof.
  intros b r five.
  destruct (generate_spec h filename (mkWorld g b fs)) as (G & _ & _ & D & _).
  fold r in G, D. cbn [geometry points lines b] in G, D.
  assert (R : all_records [mkPoint3D 0 0 0]
                [mkLine3D (mkPoint3D 0 0 0) (mkPoint3D 10 0 0)] = five)
    by (vm_compute; reflexivity).
  rewrite R in G, D. rewrite G. cbn [entities].
  repeat split; try reflexivity. exact D.
Qed.

Lemma one_segment_scenario_witness :
  fst (generate_step_file willing_host "b1.step"
         (mkWorld fresh_generator one_segment_set no_files)) = Ok tt /\
  List.length
    (entities (generator (snd (generate_step_file willing_host "b1.step"
         (mkWorld fresh_generator one_segment_set no_files))))) = 5.
Proof.
  split; [vm_compute; reflexivity|].
  apply (one_segment_scenario willing_host "b1.step" fresh_generator no_files "B1").
Defined.

(** C4, as the claim states it, fails on a whole call.  In a set of four
    segments the first of which goes from the origin to the origin, the call
    emits three CARTESIAN_POINT records on account of that segment (its
    start in the segment loop, its start and its end in the surface step),
    not one: 20 such records with the segment, 17 without it. *)
Lemma degenerate_segment_counterexample :
  let d := mkLine3D (mkPoint3D 0 0 0) (mkPoint3D 0 0 0) in
  let others :=
    [ mkLine3D (mkPoint3D 0 0 0) (mkPoint3D 1 0 0);
      mkLine3D (mkPoint3D 1 0 0) (mkPoint3D 1 1 0);
      mkLine3D (mkPoint3D 1 1 0) (mkPoint3D 0 1 0) ] in
  let call ls :=
    entities (generator (snd (generate_step_file willing_host "b1.step"
       (mkWorld fresh_generator (mkB1Entity [] ls "B1") no_files)))) in
  same_coordinates (start d) (end_ d) /\
  count_type "CARTESIAN_POINT" (call (d :: others)) = 20 /\
  count_type "CARTESIAN_POINT" (call others) = 17 /\
  count_type "CARTESIAN_POINT" (call (d :: others))
  <> count_type "CARTESIAN_POINT" (call others) + 1.
Proof.
  split; [left; reflexivity|].
  split; [vm_compute; reflexivity|].
  split; [vm_compute; reflexivity|].
  vm_compute. discriminate.
Qed.

(** C4, amended.  For a segment whose start and end have equal coordinates,
    the segment loop of [generate_step_file] raises nothing, adds no line
    identifier and appends exactly one record, the CARTESIAN_POINT of the
    segment's start: no DIRECTION, VECTOR or LINE record.  Over a whole call
    the set with that segment has as many VECTOR and LINE records as the set
    without it; it has one CARTESIAN_POINT record more from the segment loop,
    and beyond that only what the surface and solid steps emit for the
    segments they read, degenerate or not: from three segments on, two
    CARTESIAN_POINT records for each of the first four segments, eight for
    the block, and the DIRECTION of the plane.  Below three segments the
    segment accounts for exactly one CARTESIAN_POINT record of the call. *)
Theorem degenerate_segment_in_a_call
    h filename l line_ids w g ps before after set_name fs :
  same_coordinates (start l) (end_ l) ->
  let r := process_line l line_ids w in
  let c := entity_counter (generator w) in
  let call ls :=
    entities (generator (snd (generate_step_file h filename
                                (mkWorld g (mkB1Entity ps ls set_name) fs)))) in
  let planes (ls : list Line3D) := if 3 <=? List.length ls then 1 else 0 in
  let later_points (ls : list Line3D) :=
    planes ls * (2 * Nat.min 4 (List.length ls) + 8) in
  let with_l := before ++ l :: after in
  let without_l := before ++ after in
  (fst r = Ok line_ids /\
   entities (generator (snd r))
   = entities (generator w)
       ++ [mkEntity c "CARTESIAN_POINT"
             [ALabel EmptyString; ACoords (x (start l)) (y (start l)) (z (start l))]] /\
   entity_counter (generator (snd r)) = c + 1) /\
  (count_type "CARTESIAN_POINT" (call with_l) + later_points without_l
   = count_type "CARTESIAN_POINT" (call without_l) + 1 + later_points with_l /\
   count_type "DIRECTION" (call with_l) + planes without_l
   = count_type "DIRECTION" (call without_l) + planes with_l /\
   count_type "VECTOR" (call with_l) = count_type "VECTOR" (call without_l) /\
   count_type "LINE" (call with_l) = count_type "LINE" (call without_l)) /\
  (List.length with_l < 3 ->
   count_type "CARTESIAN_POINT" (call with_l)
   = count_type "CARTESIAN_POINT" (call without_l) + 1 /\
   count_type "DIRECTION" (call with_l) = count_type "DIRECTION" (call without_l)).
Proof.
  intros E r c call planes later_points with_l without_l.
  pose proof (equal_ends_not_drawn l E) as D.
  assert (F : List.length (filter drawn with_l)
              = List.length (filter drawn without_l)).
  { unfold with_l, without_l. rewrite !filter_app, !length_app.
    cbn [filter]. rewrite D. reflexivity. }
  assert (L : List.length with_l = S (List.length without_l)).
  { unfold with_l, without_l. rewrite !length_app. cbn [List.length]. lia. }
  assert (C : forall t ls,
             count_type t (call ls)
             = (List.length ps + List.length ls) * hit t "CARTESIAN_POINT"
               + List.length (filter drawn ls)
                 * (hit t "DIRECTION" + hit t "VECTOR" + hit t "LINE")
               + (if 3 <=? List.length ls
                  then (2 * Nat.min 4 (List.length ls) + 8) * hit t "CARTESIAN_POINT"
                       + hit t "DIRECTION" + hit t "PLANE" + hit t "BLOCK"
                  else 0)).
  { intros t ls. unfold call. rewrite generate_entities. apply count_all. }
  split; [|split].
  - unfold r. rewrite process_line_run. fold c.
    unfold line_records. rewrite D.
    cbn [fst snd emit with_self generator entities entity_counter List.length].
    rewrite app_nil_r. repeat split; reflexivity.
  - rewrite !C, F, L. unfold later_points, planes. rewrite L. eval_hits.
    clear. destruct (3 <=? S (List.length without_l)), (3 <=? List.length without_l);
      repeat split; lia.
  - intros T. rewrite !C, F, L. rewrite L in T.
    replace (3 <=? S (List.length without_l)) with false
      by (symmetry; apply Nat.leb_gt; exact T).
    replace (3 <=? List.length without_l) with false
      by (symmetry; apply Nat.leb_gt; lia).
    eval_hits. clear. split; lia.
Qed.

Lemma degenerate_segment_in_a_call_witness :
  same_coordinates (mkPoint3D 1 2 3) (mkPoint3D 1 2 3) /\
  fst (process_line (mkLine3D (mkPoint3D 1 2 3) (mkPoint3D 1 2 3)) []
         (mkWorld fresh_generator degenerate_set no_files)) = Ok [].
Proof.
  assert (E : same_coordinates (start (mkLine3D (mkPoint3D 1 2 3) (mkPoint3D 1 2 3)))
                               (end_ (mkLine3D (mkPoint3D 1 2 3) (mkPoint3D 1 2 3))))
    by (left; reflexivity).
  split; [exact E|].
  exact (proj1 (proj1 (degenerate_segment_in_a_call
                         willing_host "b1.step"
                         (mkLine3D (mkPoint3D 1 2 3) (mkPoint3D 1 2 3)) []
                         (mkWorld fresh_generator degenerate_set no_files)
                         fresh_generator [] [] [] "B1" no_files E))).
Defined.

(** C5, as the claim states it, fails: a segment between two different
    points can have the computed length zero.  For the set without points
    whose one segment goes from (0,0,0) to (2^-600,0,0), the point and
    segment loops produce one record, fewer than P + 3*S = 3. *)
Lemma distinct_endpoints_counterexample :
  let l := mkLine3D (mkPoint3D 0 0 0) (mkPoint3D 0x1p-600 0 0) in
  let b := mkB1Entity [] [l] "B1" in
  let w := mkWorld fresh_generator b no_files in
  let produced :=
    List.length (entities (generator (snd ((process_points ;;; process_lines) w)))) in
  Forall (fun s => start s <> end_ s) (lines b) /\
  produced = 1 /\
  ~ (List.length (points b) + 3 * List.length (lines b) <= produced).
Proof.
  split; [repeat constructor; discriminate|].
  split; [vm_compute; reflexivity|].
  vm_compute. lia.
Qed.

(** C5, amended.  When every segment has a computed length that is a number
    other than zero, the two loops of [generate_step_file] over the P points
    and the S segments raise nothing and append P + 4*S records, hence at
    least P + 3*S; so one call produces at least P + 3*S records. *)
Theorem points_and_lines_record_count h filename w :
  Forall (fun l => nonzero_length l = true) (lines (geometry w)) ->
  let P := List.length (points (geometry w)) in
  let S := List.length (lines (geometry w)) in
  let r := (process_points ;;; process_lines) w in
  (exists line_ids, fst r = Ok line_ids) /\
  List.length (entities (generator (snd r)))
  = List.length (entities (generator w)) + (P + 4 * S) /\
  List.length (entities (generator w)) + (P + 3 * S)
  <= List.length (entities (generator (snd r))) /\
  P + 3 * S
  <= List.length (entities (generator (snd (generate_step_file h filename w)))).
Proof.
  intros N P S r.
  assert (D : Forall (fun l => drawn l = true) (lines (geometry w))).
  { eapply Forall_impl; [|exact N]. intros l. apply nonzero_length_drawn. }
  destruct (points_then_lines_run w) as [ids R]. fold r in R. rewrite R.
  cbn [fst snd emit with_self generator entities].
  rewrite !length_app, points_records_length, (lines_records_all_drawn _ _ D).
  fold P S.
  split; [eauto|]. split; [lia|]. split; [lia|].
  rewrite generate_entities. unfold all_records.
  rewrite !length_app, points_records_length, (lines_records_all_drawn _ _ D).
  fold P S. clear. lia.
Qed.

Lemma points_and_lines_record_count_witness :
  4 + 3 * 4
  <= List.length
       (entities (generator (snd (generate_step_file willing_host "b1.step"
          (mkWorld fresh_generator square_set no_files))))).
Proof.
  apply (points_and_lines_record_count willing_host "b1.step"
           (mkWorld fresh_generator square_set no_files)).
  repeat constructor.
Defined.

(** C6. The bounding box of a set without points is (origin, origin); the
    bounding box of a set whose only point is [p] is ([p], [p]). *)
Theorem bounding_box_empty_and_single p ls set_name :
  get_bounding_box (mkB1Entity [] ls set_name)
  = Ok (mkPoint3D 0 0 0, mkPoint3D 0 0 0) /\
  get_bounding_box (mkB1Entity [p] ls set_name) = Ok (p, p).
Proof.
  split; [reflexivity|]. destruct p as [px py pz]. reflexivity.
Qed.

(** C7. The generator state after a call depends on the point and segment
    sequences only: two calls on sets with the same points and segments leave
    the same counter and the same records, whatever the encoder held before,
    the host, the path and the set's name; in particular a second call on the
    same instance reproduces the records of the first. *)
Theorem generate_deterministic h1 h2 file1 file2 g1 g2 fs1 fs2 ps ls name1 name2 :
  let w1 := mkWorld g1 (mkB1Entity ps ls name1) fs1 in
  let w2 := mkWorld g2 (mkB1Entity ps ls name2) fs2 in
  generator (snd (generate_step_file h1 file1 w1))
  = generator (snd (generate_step_file h2 file2 w2)) /\
  generator (snd (generate_step_file h2 file2 (snd (generate_step_file h1 file1 w1))))
  = generator (snd (generate_step_file h1 file1 w1)).
Proof.
  intros w1 w2. split.
  - rewrite !generate_generator. reflexivity.
  - rewrite (generate_generator h2).
    destruct (generate_spec h1 file1 w1) as (_ & G & _). rewrite G.
    rewrite generate_generator. reflexivity.
Qed.

(** C8. [generate_step_file] returns normally exactly when the path can be
    opened and the host accepts every chunk of the document; otherwise it
    raises WriteError, so no other exception can come out of a call.  When
    the path cannot be opened nothing is written. *)
Theorem write_error_is_the_only_failure h filename w :
  let r := generate_step_file h filename w in
  let doc := document h filename (entities (generator (snd r))) in
  fst r = (if can_open h filename && accepts h filename [] doc
           then Ok tt else Raise WriteError) /\
  (can_open h filename = false \/ accepts h filename [] doc = false ->
   fst r = Raise WriteError) /\
  (fst r = Ok tt \/ fst r = Raise WriteError) /\
  (fst r = Ok tt -> files (snd r) filename = Some doc) /\
  (can_open h filename = false -> files (snd r) = files w).
Proof.
  intros r doc.
  assert (E : doc = document h filename
                      (all_records (points (geometry w)) (lines (geometry w))))
    by (unfold doc, r; rewrite generate_entities; reflexivity).
  rewrite E. clear E doc.
  destruct (generate_spec h filename w) as (_ & _ & F & D & O). fold r in F, D, O.
  split; [exact F|]. split; [|split; [|split; [exact D|exact O]]].
  - rewrite F. intros [C|C]; rewrite C; [reflexivity|].
    rewrite andb_false_r. reflexivity.
  - rewrite F. destruct (_ && _); auto.
Qed.

Lemma write_error_is_the_only_failure_witness :
  fst (generate_step_file readonly_host "b1.step"
         (mkWorld fresh_generator square_set no_files)) = Raise WriteError /\
  fst (generate_step_file full_disk_host "b1.step"
         (mkWorld fresh_generator square_set no_files)) = Raise WriteError.
Proof.
  split.
  - apply (write_error_is_the_only_failure readonly_host "b1.step"
             (mkWorld fresh_generator square_set no_files)).
    left. reflexivity.
  - apply (write_error_is_the_only_failure full_disk_host "b1.step"
             (mkWorld fresh_generator square_set no_files)).
    right. vm_compute. reflexivity.
Defined.

(** C9. Segments of length zero count toward the surface threshold: for a
    set of P points and S >= 3 segments, all of length zero, one call emits
    exactly one PLANE and one BLOCK record; the only DIRECTION record is the
    plane's normal, there is no VECTOR and no LINE record, and the
    CARTESIAN_POINT records are the P points, the S segment starts, two per
    segment among the first four, and the eight corners of the block. *)
Theorem degenerate_segments_reach_threshold h filename w :
  3 <= List.length (lines (geometry w)) ->
  Forall (fun l => zero_length l = true) (lines (geometry w)) ->
  let es := entities (generator (snd (generate_step_file h filename w))) in
  let P := List.length (points (geometry w)) in
  let S := List.length (lines (geometry w)) in
  count_type "PLANE" es = 1 /\
  count_type "BLOCK" es = 1 /\
  count_type "DIRECTION" es = 1 /\
  count_type "VECTOR" es = 0 /\
  count_type "LINE" es = 0 /\
  count_type "CARTESIAN_POINT" es = P + S + 2 * Nat.min 4 S + 8.
Proof.
  intros T Z es P S. unfold es. rewrite generate_entities, !count_all.
  assert (D : filter drawn (lines (geometry w)) = []).
  { apply filter_none. eapply Forall_impl; [|exact Z].
    intros l. apply zero_length_not_drawn. }
  rewrite D. fold P S. fold S in T.
  replace (3 <=? S) with true by (symmetry; apply Nat.leb_le; exact T).
  eval_hits. cbn [List.length]. clear es Z D. clearbody P S.
  repeat split; lia.
Qed.

Lemma degenerate_segments_reach_threshold_witness :
  count_type "PLANE"
    (entities (generator (snd (generate_step_file willing_host "b1.step"
       (mkWorld fresh_generator degenerate_set no_files))))) = 1.
Proof.
  assert (A : 3 <= List.length
                     (lines (geometry (mkWorld fresh_generator degenerate_set no_files))))
    by (vm_compute; lia).
  assert (B : Forall (fun l => zero_length l = true)
                (lines (geometry (mkWorld fresh_generator degenerate_set no_files))))
    by (repeat constructor).
  exact (proj1 (degenerate_segments_reach_threshold willing_host "b1.step"
                  (mkWorld fresh_generator degenerate_set no_files) A B)).
Defined.

(** C10. A call leaves the geometry set as it was: its name, its points and
    its segments, with every coordinate; so do the surface and the solid
    step on their own. *)
Theorem generate_preserves_geometry h filename w surface_ids :
  geometry (snd (generate_step_file h filename w)) = geometry w /\
  geometry (snd (_generate_surfaces_from_lines w)) = geometry w /\
  geometry (snd (_generate_solid_from_surfaces surface_ids w)) = geometry w.
Proof.
  split; [apply (generate_spec h filename w)|]. split.
  - rewrite surfaces_run. reflexivity.
  - rewrite solid_run. destruct surface_ids; reflexivity.
Qed.

Lemma SFltb_rank a b :
  SFltb a b = true <->
  is_nan_sf a = false /\ is_nan_sf b = false /\ rank_lt (rank a) (rank b).
Proof.
  unfold SFltb.
  destruct a as [[]|[]| |[] ma ea], b as [[]|[]| |[] mb eb]; simpl;
    try (split; [discriminate|intros (A & B & C); try discriminate; lia]);
    try (split; [intros _; repeat split; lia|reflexivity]).
  - destruct (Z.compare_spec ea eb) as [E|E|E]; simpl.
    + subst. rewrite Pos.compare_cont_spec. simpl.
      destruct (Pos.compare_spec ma mb) as [F|F|F]; simpl;
        (split; [try discriminate; intros _; repeat split; lia
                |intros (_ & _ & C); try reflexivity; lia]).
    + split; [discriminate|intros (_ & _ & C); lia].
    + split; [intros _; repeat split; lia|reflexivity].
  - destruct (Z.compare_spec ea eb) as [E|E|E]; simpl.
    + subst. rewrite Pos.compare_cont_spec. simpl.
      destruct (Pos.compare_spec ma mb) as [F|F|F]; simpl;
        (split; [try discriminate; intros _; repeat split; lia
                |intros (_ & _ & C); try reflexivity; lia]).
    + split; [intros _; repeat split; lia|reflexivity].
    + split; [discriminate|intros (_ & _ & C); lia].
Qed.

Lemma ltb_irrefl a : (a <? a)%float = false.
Proof.
  destruct (a <? a)%float eqn:E; [|reflexivity].
  rewrite ltb_spec in E. apply SFltb_rank in E as (_ & _ & C).
  destruct (rank (Prim2SF a)) as [[a1 a2] a3]. simpl in C. lia.
Qed.

Lemma ltb_trans a b c :
  (a <? b)%float = true -> (b <? c)%float = true -> (a <? c)%float = true.
Proof.
  rewrite !ltb_spec. intros H1 H2.
  apply SFltb_rank in H1 as (A & B & C1). apply SFltb_rank in H2 as (_ & C & C2).
  apply SFltb_rank. repeat split; try assumption.
  destruct (rank (Prim2SF a)) as [[a1 a2] a3].
  destruct (rank (Prim2SF b)) as [[b1 b2] b3].
  destruct (rank (Prim2SF c)) as [[c1 c2] c3].
  simpl in *. lia.
Qed.

(** * The bounding box *)

Lemma fold_min_lower vs : forall cur e,
  In e vs \/ (e <? cur)%float = false ->
  (e <? fold_min cur vs)%float = false.
Proof.
  unfold fold_min.
  induction vs as [|item vs IH]; intros cur e H; simpl.
  - destruct H as [[]|H]; exact H.
  - apply IH. destruct H as [[->|H]|H]; [right|left; exact H|right].
    + destruct (e <? cur)%float eqn:E; [apply ltb_irrefl|exact E].
    + destruct (item <? cur)%float eqn:E; [|exact H].
      destruct (e <? item)%float eqn:F; [|reflexivity].
      rewrite (ltb_trans _ _ _ F E) in H. discriminate.
Qed.

Lemma fold_max_upper vs : forall cur e,
  In e vs \/ (cur <? e)%float = false ->
  (fold_max cur vs <? e)%float = false.
Proof.
  unfold fold_max.
  induction vs as [|item vs IH]; intros cur e H; simpl.
  - destruct H as [[]|H]; exact H.
  - apply IH. destruct H as [[->|H]|H]; [right|left; exact H|right].
    + destruct (cur <? e)%float eqn:E; [apply ltb_irrefl|exact E].
    + destruct (cur <? item)%float eqn:E; [|exact H].
      destruct (item <? e)%float eqn:F; [|reflexivity].
      rewrite (ltb_trans _ _ _ E F) in H. discriminate.
Qed.

Lemma fold_min_attained vs : forall cur, In (fold_min cur vs) (cur :: vs).
Proof.
  unfold fold_min.
  induction vs as [|item vs IH]; intros cur; simpl.
  - left; reflexivity.
  - destruct (IH (if (item <? cur)%float then item else cur)) as [E|E].
    + rewrite <- E. destruct (item <? cur)%float; auto.
    + auto.
Qed.

Lemma fold_max_attained vs : forall cur, In (fold_max cur vs) (cur :: vs).
Proof.
  unfold fold_max.
  induction vs as [|item vs IH]; intros cur; simpl.
  - left; reflexivity.
  - destruct (IH (if (cur <? item)%float then item else cur)) as [E|E].
    + rewrite <- E. destruct (cur <? item)%float; auto.
    + auto.
Qed.

Lemma fold_min_snoc vs : forall cur v,
  fold_min cur (vs ++ [v]) = min_step (fold_min cur vs) v.
Proof. intros. unfold fold_min. rewrite fold_left_app. reflexivity. Qed.

Lemma fold_max_snoc vs : forall cur v,
  fold_max cur (vs ++ [v]) = max_step (fold_max cur vs) v.
Proof. intros. unfold fold_max. rewrite fold_left_app. reflexivity. Qed.

(** X1. [get_bounding_box] never raises, and no point of the set is outside
    the box it returns: no coordinate of a point compares less than the
    minimum corner's or greater than the maximum corner's. *)
Theorem bounding_box_contains_points b :
  exists lo hi,
    get_bounding_box b = Ok (lo, hi) /\
    forall p, In p (points b) -> inside lo hi p.
Proof.
  rewrite bounding_box_run. unfold bounding_box.
  destruct (points b) as [|q qs].
  - eexists _, _. split; [reflexivity|]. intros p [].
  - eexists _, _. split; [reflexivity|]. intros p H. unfold inside. simpl.
    assert (K : forall (f : Point3D -> float),
               In (f p) (map f qs) \/ f p = f q).
    { intros f. destruct H as [->|H]; [right; reflexivity|left; apply in_map; exact H]. }
    repeat split.
    all: match goal with
         | |- (?f _ <? fold_min _ _)%float = false =>
             apply fold_min_lower; destruct (K f) as [I | ->];
             [left; exact I|right; apply ltb_irrefl]
         | |- (fold_max _ _ <? ?f _)%float = false =>
             apply fold_max_upper; destruct (K f) as [I | ->];
             [left; exact I|right; apply ltb_irrefl]
         end.
Qed.

(** X2. The corners of the box of a set with points are made of coordinates
    that occur in the set: each coordinate of the minimum and of the maximum
    corner is that coordinate of some point. *)
Theorem bounding_box_corners_attained b lo hi :
  points b <> [] ->
  get_bounding_box b = Ok (lo, hi) ->
  In (x lo) (map x (points b)) /\ In (y lo) (map y (points b)) /\
  In (z lo) (map z (points b)) /\ In (x hi) (map x (points b)) /\
  In (y hi) (map y (points b)) /\ In (z hi) (map z (points b)).
Proof.
  rewrite bounding_box_run. unfold bounding_box.
  destruct (points b) as [|q qs]; [contradiction|].
  intros _ E. injection E as <- <-. simpl.
  repeat split; first [apply fold_min_attained | apply fold_max_attained].
Qed.

Lemma bounding_box_corners_attained_witness :
  In (x (mkPoint3D 0 0 0)) (map x (points square_set)).
Proof.
  assert (N : points square_set <> []) by discriminate.
  assert (E : get_bounding_box square_set = Ok (mkPoint3D 0 0 0, mkPoint3D 1 1 0))
    by (vm_compute; reflexivity).
  exact (proj1 (bounding_box_corners_attained square_set _ _ N E)).
Defined.

(** X3. Adding a point to a set with points extends the box by that point,
    one [min] and one [max] step per coordinate; adding the first point gives
    the box ([p], [p]), so the origin fallback of the empty set leaves no
    trace; adding a segment never changes the box. *)
Theorem bounding_box_after_add b lo hi p l :
  get_bounding_box b = Ok (lo, hi) ->
  get_bounding_box (add_point b p)
  = (match points b with
     | [] => Ok (p, p)
     | _ :: _ =>
         Ok (mkPoint3D (min_step (x lo) (x p)) (min_step (y lo) (y p))
                       (min_step (z lo) (z p)),
             mkPoint3D (max_step (x hi) (x p)) (max_step (y hi) (y p))
                       (max_step (z hi) (z p)))
     end) /\
  get_bounding_box (add_line b l) = Ok (lo, hi).
Proof.
  intros E. split.
  - rewrite bounding_box_run in *. unfold bounding_box, add_point in *.
    cbn [points]. destruct (points b) as [|q qs]; simpl.
    + destruct p; reflexivity.
    + injection E as <- <-. simpl.
      rewrite !map_app. simpl. rewrite !fold_min_snoc, !fold_max_snoc. reflexivity.
  - rewrite <- E. reflexivity.
Qed.

Lemma bounding_box_after_add_witness :
  get_bounding_box (add_point square_set (mkPoint3D 2 0 5))
  = Ok (mkPoint3D 0 0 0, mkPoint3D 2 1 5).
Proof.
  assert (E : get_bounding_box square_set = Ok (mkPoint3D 0 0 0, mkPoint3D 1 1 0))
    by (vm_compute; reflexivity).
  exact (proj1 (bounding_box_after_add square_set _ _ (mkPoint3D 2 0 5)
                  (mkLine3D origin origin) E)).
Defined.

(** * Line3D.length *)

Lemma round_aux_opp s m e l :
  SFopp (binary_round_aux prec emax s m e l)
  = binary_round_aux prec emax (negb s) m e l.
Proof.
  unfold binary_round_aux.
  destruct (shr_fexp prec emax m e l) as [mrs' e'].
  destruct (shr_fexp prec emax _ e' loc_Exact) as [mrs'' e''].
  destruct (shr_m mrs''); try reflexivity.
  destruct (Z.leb e'' (emax - prec)); reflexivity.
Qed.

Lemma normalize_opp d e :
  binary_normalize prec emax (- d) e false
  = match d with
    | Z0 => S754_zero false
    | _ => SFopp (binary_normalize prec emax d e false)
    end.
Proof.
  destruct d as [|m|m]; simpl; trivial; unfold binary_round;
    destruct (shl_align _ _ _) as [mz ez]; rewrite round_aux_opp; reflexivity.
Qed.

Lemma mul_opp_self X : SF64mul (SFopp X) (SFopp X) = SF64mul X X.
Proof.
  destruct X as [s|s| |s m e]; simpl; trivial; destruct s; reflexivity.
Qed.

Lemma sub_swap_square X Y :
  SF64mul (SF64sub X Y) (SF64sub X Y) = SF64mul (SF64sub Y X) (SF64sub Y X).
Proof.
  destruct X as [sx|sx| |sx mx ex], Y as [sy|sy| |sy my ey];
    try solve [repeat match goal with s : bool |- _ => destruct s end; reflexivity].
  unfold SF64sub, SFsub. rewrite (Z.min_comm ey ex).
  set (a := cond_Zopp sx _). set (c := cond_Zopp sy _).
  replace (c - a)%Z with (- (a - c))%Z by lia.
  rewrite normalize_opp.
  destruct (a - c)%Z eqn:D; [reflexivity| |]; rewrite mul_opp_self; reflexivity.
Qed.

Lemma sq_norm_swap p q : sq_norm (mkLine3D p q) = sq_norm (mkLine3D q p).
Proof.
  unfold sq_norm. cbn [start end_].
  apply Prim2SF_inj. rewrite !add_spec, !mul_spec, !sub_spec.
  rewrite (sub_swap_square (Prim2SF (x q))), (sub_swap_square (Prim2SF (y q))),
          (sub_swap_square (Prim2SF (z q))).
  reflexivity.
Qed.

(** X4. [Line3D.length] never raises; its result is never less than zero;
    and it is the same for a segment and for the segment reversed. *)
Theorem length_total_nonnegative_symmetric p q :
  exists m,
    length_ (mkLine3D p q) = Ok m /\
    (m <? 0)%float = false /\
    length_ (mkLine3D q p) = Ok m.
Proof.
  exists (magnitude_of (mkLine3D p q)). split; [apply length_run|]. split.
  - unfold magnitude_of. rewrite ltb_spec, zero_sf, sqrt_spec.
    apply nonneg_not_lt_zero, sqrt_nonneg.
  - rewrite length_run. unfold magnitude_of. rewrite sq_norm_swap. reflexivity.
Qed.

(** X5. A segment between two different points can have the computed
    length zero, because the squares underflow; the segment loop then treats
    it like a degenerate segment and emits its start point only. *)
Theorem tiny_segment_is_dropped line_ids w :
  start tiny_segment <> end_ tiny_segment /\
  length_ tiny_segment = Ok 0%float /\
  process_line tiny_segment line_ids w
  = (Ok line_ids,
     emit w [point_record (entity_counter (generator w)) (start tiny_segment)]).
Proof.
  split; [discriminate|]. split; [vm_compute; reflexivity|].
  rewrite process_line_run. unfold line_records.
  replace (drawn tiny_segment) with false by (vm_compute; reflexivity).
  rewrite app_nil_r. reflexivity.
Qed.

(** X6. The direction the segment loop emits is not always a unit vector:
    when the squares overflow, the magnitude is infinite and the direction
    record carries the zero vector. *)
Theorem huge_segment_gets_zero_direction line_ids w :
  let c := entity_counter (generator w) in
  length_ huge_segment = Ok infinity /\
  process_line huge_segment line_ids w
  = (Ok (line_ids ++ [c + 3]),
     emit w [ point_record c (start huge_segment);
              mkEntity (c + 1) "DIRECTION" [ALabel EmptyString; ACoords 0 0 0];
              mkEntity (c + 2) "VECTOR" [ALabel EmptyString; ARef (c + 1); ANum infinity];
              mkEntity (c + 3) "LINE" [ALabel EmptyString; ARef c; ARef (c + 2)] ]).
Proof.
  intros c. split; [vm_compute; reflexivity|].
  rewrite process_line_run. fold c. unfold line_records.
  replace (drawn huge_segment) with true by (vm_compute; reflexivity).
  replace (magnitude_of huge_segment) with infinity by (vm_compute; reflexivity).
  repeat f_equal; vm_compute; reflexivity.
Qed.

(** * Consistency of the encoder *)

Lemma well_formed_numbered g :
  well_formed g <->
  entity_counter g = 1 + List.length (entities g) /\ numbered 1 1 (entities g).
Proof. unfold well_formed, numbered, backward_refs. tauto. Qed.

Lemma emit_well_formed w new :
  well_formed (generator w) ->
  numbered 1 (entity_counter (generator w)) new ->
  well_formed (generator (emit w new)).
Proof.
  intros W N. apply well_formed_numbered in W as [C W].
  apply well_formed_numbered. cbn [emit with_self generator entity_counter entities].
  split; [rewrite length_app; lia|].
  apply numbered_app; [exact W|]. rewrite <- C. exact N.
Qed.

Lemma well_formed_counter_pos g : well_formed g -> 1 <= entity_counter g.
Proof. intros [C _]. lia. Qed.




(** * The steps on their own *)

Lemma positive_length_drawn l : positive_length l = drawn l.
Proof. unfold positive_length, drawn. rewrite length_run. reflexivity. Qed.

Lemma endpoint_records_points ls : forall n,
  Forall (fun e => e_type e = "CARTESIAN_POINT") (endpoint_records n ls).
Proof.
  induction ls as [|l ls IH]; intros n; simpl; repeat constructor. apply IH.
Qed.

Lemma endpoint_records_nth ls : forall n i l,
  nth_error ls i = Some l ->
  nth_error (endpoint_records n ls) (2 * i)
  = Some (point_record (n + 2 * i) (start l)) /\
  nth_error (endpoint_records n ls) (2 * i + 1)
  = Some (point_record (n + 2 * i + 1) (end_ l)).
Proof.
  induction ls as [|l0 ls IH]; intros n i l E; destruct i as [|i];
    cbn [nth_error] in E; try discriminate.
  - injection E as ->. cbn [endpoint_records]. rewrite Nat.mul_0_r, !Nat.add_0_r.
    split; reflexivity.
  - cbn [endpoint_records].
    replace (2 * S i) with (S (S (2 * i))) by lia.
    replace (S (S (2 * i)) + 1) with (S (S (2 * i + 1))) by lia.
    cbn [nth_error]. destruct (IH (n + 2) i l E) as [A B].
    rewrite A, B. split; do 2 f_equal; lia.
Qed.

(** X8. [_generate_surfaces_from_lines] returns the empty list and changes
    nothing below three segments.  From three segments on it appends, for
    each of the first four segments at most, in order, the CARTESIAN_POINT of
    the segment's start and then that of its end, then one DIRECTION (0,0,1),
    then one PLANE that refers to the first record appended (the start of the
    first segment) and to that direction, whatever the geometry; it returns
    the identifier of the plane alone. *)
Theorem surface_step_shape w :
  let ls := lines (geometry w) in
  let c := entity_counter (generator w) in
  let r := _generate_surfaces_from_lines w in
  if List.length ls <? 3 then r = (Ok [], w)
  else
    let four := firstn 4 ls in
    let k := c + 2 * List.length four in
    exists pts,
      fst r = Ok [k + 1] /\
      entities (generator (snd r))
      = entities (generator w)
          ++ pts
          ++ [ mkEntity k "DIRECTION" [ALabel EmptyString; ACoords 0 0 1];
               mkEntity (k + 1) "PLANE" [ALabel EmptyString; ARef c; ARef k] ] /\
      List.length pts = 2 * List.length four /\
      List.length four = Nat.min 4 (List.length ls) /\
      (forall i l,
         nth_error four i = Some l ->
         nth_error pts (2 * i)
         = Some (mkEntity (c + 2 * i) "CARTESIAN_POINT"
                   [ALabel EmptyString;
                    ACoords (x (start l)) (y (start l)) (z (start l))]) /\
         nth_error pts (2 * i + 1)
         = Some (mkEntity (c + 2 * i + 1) "CARTESIAN_POINT"
                   [ALabel EmptyString;
                    ACoords (x (end_ l)) (y (end_ l)) (z (end_ l))])) /\
      entity_counter (generator (snd r)) = k + 2.
Proof.
  intros ls c r. unfold r. rewrite surfaces_run. fold ls c.
  unfold surface_records.
  destruct (Nat.ltb_spec (List.length ls) 3) as [L|L].
  - replace (3 <=? List.length ls) with false by (symmetry; apply Nat.leb_gt; lia).
    rewrite emit_nil. reflexivity.
  - replace (3 <=? List.length ls) with true by (symmetry; apply Nat.leb_le; lia).
    exists (endpoint_records c (firstn 4 ls)).
    cbn [fst snd emit with_self generator entities entity_counter].
    split; [reflexivity|]. split; [reflexivity|].
    split; [apply endpoint_records_length|].
    split; [apply length_firstn|].
    split; [intros i l E; apply (endpoint_records_nth (firstn 4 ls) c i l E)|].
    rewrite length_app, endpoint_records_length. cbn [List.length]. lia.
Qed.

(** X9. The surface step reads the first four segments only: segments after
    the fourth, the points and the name of the set change neither what it
    returns nor the encoder it leaves. *)
Theorem surface_step_reads_four_segments g l1 l2 l3 l4 extra ps ps' nm nm' fs fs' :
  let w := mkWorld g (mkB1Entity ps ([l1; l2; l3; l4] ++ extra) nm) fs in
  let w' := mkWorld g (mkB1Entity ps' [l1; l2; l3; l4] nm') fs' in
  fst (_generate_surfaces_from_lines w) = fst (_generate_surfaces_from_lines w') /\
  generator (snd (_generate_surfaces_from_lines w))
  = generator (snd (_generate_surfaces_from_lines w')).
Proof.
  intros w w'. rewrite !surfaces_run. split; reflexivity.
Qed.

(** X10. [_generate_solid_from_surfaces] returns [None] and changes nothing
    when it is given no surface.  Given any surface it appends the eight
    corners of the bounding box of the points, the minimum corner first, and
    a BLOCK that refers to that first corner and carries the extents of the
    box; it returns the block's identifier.  Only the points of the set and
    the presence of a surface matter. *)
Theorem solid_step_shape w surface_id surface_ids lo hi :
  get_bounding_box (geometry w) = Ok (lo, hi) ->
  let c := entity_counter (generator w) in
  _generate_solid_from_surfaces [] w = (Ok None, w) /\
  _generate_solid_from_surfaces (surface_id :: surface_ids) w
  = (Ok (Some (c + 8)),
     emit w
       [ point_record c (mkPoint3D (x lo) (y lo) (z lo));
         point_record (c + 1) (mkPoint3D (x hi) (y lo) (z lo));
         point_record (c + 2) (mkPoint3D (x hi) (y hi) (z lo));
         point_record (c + 3) (mkPoint3D (x lo) (y hi) (z lo));
         point_record (c + 4) (mkPoint3D (x lo) (y lo) (z hi));
         point_record (c + 5) (mkPoint3D (x hi) (y lo) (z hi));
         point_record (c + 6) (mkPoint3D (x hi) (y hi) (z hi));
         point_record (c + 7) (mkPoint3D (x lo) (y hi) (z hi));
         mkEntity (c + 8) "BLOCK"
           [ALabel EmptyString; ARef c;
            ANum (x hi - x lo)%float; ANum (y hi - y lo)%float;
            ANum (z hi - z lo)%float] ]).
Proof.
  intros B c. split; [reflexivity|].
  rewrite solid_run. fold c. unfold block_records.
  rewrite bounding_box_run in B. injection B as B. rewrite B. reflexivity.
Qed.

Lemma solid_step_shape_witness :
  fst (_generate_solid_from_surfaces [7]
         (mkWorld fresh_generator square_set no_files)) = Ok (Some 9).
Proof.
  assert (E : get_bounding_box (geometry (mkWorld fresh_generator square_set no_files))
              = Ok (mkPoint3D 0 0 0, mkPoint3D 1 1 0))
    by (vm_compute; reflexivity).
  pose proof (proj2 (solid_step_shape (mkWorld fresh_generator square_set no_files)
                       7 [] _ _ E)) as H.
  rewrite H. reflexivity.
Defined.

(** X11. Each step of a pass can be run on its own on a consistent encoder:
    the point loop, the segment loop, the surface step and the solid step
    raise nothing, only append to the records that are there, and leave the
    encoder consistent. *)
Theorem steps_append_and_keep_consistency w surface_ids :
  well_formed (generator w) ->
  appends process_points w /\
  appends process_lines w /\
  appends _generate_surfaces_from_lines w /\
  appends (_generate_solid_from_surfaces surface_ids) w.
Proof.
  intros W. pose proof (well_formed_counter_pos _ W) as P.
  assert (K : forall A (m : M A) a new,
             m w = (Ok a, emit w new) ->
             numbered (entity_counter (generator w)) (entity_counter (generator w)) new ->
             appends m w).
  { intros A m a new E N. unfold appends. rewrite E. cbn [fst snd].
    split; [eauto|]. split; [exists new; reflexivity|].
    apply emit_well_formed; [exact W|].
    apply (numbered_weaken (entity_counter (generator w))); assumption. }
  split; [|split; [|split]].
  - eapply K; [apply process_points_run|apply numbered_points].
  - destruct (process_lines_run w) as [ids E].
    eapply K; [exact E|apply numbered_lines; lia].
  - eapply K; [apply surfaces_run|apply numbered_surface].
  - destruct surface_ids as [|s ss].
    + eapply (K _ _ None []); [rewrite emit_nil; reflexivity|apply numbered_nil].
    + eapply K; [apply (solid_run (s :: ss) w)|apply numbered_block].
Qed.

Lemma steps_append_and_keep_consistency_witness :
  well_formed (generator (snd (process_lines
                 (mkWorld fresh_generator square_set no_files)))).
Proof.
  assert (W : well_formed (generator (mkWorld fresh_generator square_set no_files)))
    by (repeat split; constructor).
  exact (proj2 (proj2 (proj1 (proj2
           (steps_append_and_keep_consistency
              (mkWorld fresh_generator square_set no_files) [] W))))).
Defined.

(** * Census of a pass *)

Lemma lines_records_length ls : forall n,
  List.length (lines_records n ls)
  = List.length ls + 3 * List.length (filter drawn ls).
Proof.
  induction ls as [|l ls IH]; intros n; cbn [lines_records List.length filter].
  - reflexivity.
  - rewrite length_app, IH. unfold line_records.
    destruct (drawn l); cbn [List.length]; lia.
Qed.

Lemma all_records_length ps ls :
  List.length (all_records ps ls)
  = List.length ps + List.length ls + 3 * List.length (filter drawn ls)
    + threshold ls * (2 * Nat.min 4 (List.length ls) + 11).
Proof.
  unfold all_records, solid_records, surface_records, threshold.
  rewrite !length_app, points_records_length, lines_records_length.
  destruct (3 <=? List.length ls).
  - rewrite length_app, endpoint_records_length, length_firstn.
    unfold block_records. destruct (bounding_box ps). cbn [List.length]. lia.
  - cbn [List.length]. lia.
Qed.

(** X12. The records of one call, by type: with P points, S segments, D of
    them of positive length, and T = 1 from three segments on (else 0), there
    are P + S + T*(2*min(4,S) + 8) CARTESIAN_POINT records, D + T DIRECTION
    records, D VECTOR and D LINE records, T PLANE and T BLOCK records, and no
    record of another type. *)
Theorem record_census h filename w :
  let es := entities (generator (snd (generate_step_file h filename w))) in
  let P := List.length (points (geometry w)) in
  let S := List.length (lines (geometry w)) in
  let D := List.length (filter positive_length (lines (geometry w))) in
  let T := threshold (lines (geometry w)) in
  count_type "CARTESIAN_POINT" es = P + S + T * (2 * Nat.min 4 S + 8) /\
  count_type "DIRECTION" es = D + T /\
  count_type "VECTOR" es = D /\
  count_type "LINE" es = D /\
  count_type "PLANE" es = T /\
  count_type "BLOCK" es = T /\
  List.length es = P + S + 3 * D + T * (2 * Nat.min 4 S + 11).
Proof.
  intros es P S D T. unfold es. rewrite generate_entities.
  rewrite !count_all, all_records_length.
  assert (E : filter drawn (lines (geometry w))
              = filter positive_length (lines (geometry w))).
  { apply filter_ext. intros l. symmetry. apply positive_length_drawn. }
  rewrite E. fold P S D. unfold T, threshold. fold S.
  eval_hits. clear es E. clearbody P S D.
  destruct (3 <=? S); repeat split; lia.
Qed.

(** * Types of the referenced records *)

Lemma find_id_above r pre :
  Forall (fun e => e_id e < r) pre ->
  find (fun e => e_id e =? r) pre = None.
Proof.
  induction 1 as [|e pre L _ IH]; simpl; [reflexivity|].
  replace (e_id e =? r) with false by (symmetry; apply Nat.eqb_neq; lia).
  exact IH.
Qed.

Lemma find_app_none {A} (f : A -> bool) pre rest :
  find f pre = None -> find f (pre ++ rest) = find f rest.
Proof.
  induction pre as [|a pre IH]; simpl; [reflexivity|].
  destruct (f a); [discriminate|exact IH].
Qed.

Lemma record_type_skip pre rest r :
  Forall (fun e => e_id e < r) pre ->
  record_type (pre ++ rest) r = record_type rest r.
Proof.
  intros F. unfold record_type. rewrite find_app_none; [reflexivity|].
  apply find_id_above, F.
Qed.

Lemma record_type_here e rest :
  record_type (e :: rest) (e_id e) = Some (e_type e).
Proof. unfold record_type. simpl. rewrite Nat.eqb_refl. reflexivity. Qed.

Lemma ids_from_below n es :
  ids_from n es -> Forall (fun e => e_id e < n + List.length es) es.
Proof.
  unfold ids_from. revert n. induction es as [|e es IH]; intros n I; [constructor|].
  simpl in I. injection I as I1 I2. constructor; [simpl; lia|].
  eapply Forall_impl; [|apply (IH _ I2)]. simpl. intros a. lia.
Qed.

Lemma below_weaken n m (es : list entity) :
  n <= m -> Forall (fun e => e_id e < n) es -> Forall (fun e => e_id e < m) es.
Proof. intros L. apply Forall_impl. intros a. lia. Qed.

Lemma located_nil pre : located pre [].
Proof. intros post. constructor. Qed.

Lemma located_app pre a b :
  located pre a -> located (pre ++ a) b -> located pre (a ++ b).
Proof.
  intros A B post. apply Forall_app. split.
  - specialize (A (b ++ post)). rewrite <- app_assoc. exact A.
  - specialize (B post). rewrite <- !app_assoc in *. exact B.
Qed.

Lemma located_leaves pre piece :
  Forall (fun e => refs e = [] /\ expected_refs (e_type e) = []) piece ->
  located pre piece.
Proof.
  intros F post. eapply Forall_impl; [|exact F].
  intros e [R X]. unfold refs_typed. rewrite R, X. reflexivity.
Qed.

Lemma points_records_leaves ps : forall n,
  Forall (fun e => refs e = [] /\ expected_refs (e_type e) = []) (points_records n ps).
Proof.
  induction ps as [|p ps IH]; intros n; simpl; constructor; auto.
Qed.

Lemma endpoint_records_leaves ls : forall n,
  Forall (fun e => refs e = [] /\ expected_refs (e_type e) = [])
         (endpoint_records n ls).
Proof.
  induction ls as [|l ls IH]; intros n; simpl; repeat constructor; auto.
Qed.

Lemma located_line pre n l :
  Forall (fun e => e_id e < n) pre -> located pre (line_records n l).
Proof.
  intros F. unfold line_records. destruct (drawn l).
  - intros post. unfold refs_typed, refs.
    repeat constructor; cbn [e_type e_attrs flat_map attr_refs app map expected_refs String.eqb Ascii.eqb Bool.eqb andb].
    + rewrite record_type_skip by (eapply below_weaken; [|exact F]; lia).
      unfold record_type. simpl.
      replace (n =? n + 1) with false by (symmetry; apply Nat.eqb_neq; lia).
      rewrite Nat.eqb_refl. reflexivity.
    + rewrite !record_type_skip by (eapply below_weaken; [|exact F]; lia).
      unfold record_type. simpl.
      replace (n =? n + 2) with false by (symmetry; apply Nat.eqb_neq; lia).
      replace (n + 1 =? n + 2) with false by (symmetry; apply Nat.eqb_neq; lia).
      rewrite !Nat.eqb_refl. reflexivity.
  - apply located_leaves. repeat constructor.
Qed.

Lemma located_lines ls : forall pre n,
  Forall (fun e => e_id e < n) pre -> located pre (lines_records n ls).
Proof.
  induction ls as [|l ls IH]; intros pre n F; cbn [lines_records].
  - apply located_nil.
  - apply located_app; [apply located_line, F|].
    apply IH. apply Forall_app. split.
    + eapply below_weaken; [|exact F]. lia.
    + apply ids_from_below, numbered_line.
Qed.

Lemma located_surface pre n ls :
  Forall (fun e => e_id e < n) pre -> located pre (surface_records n ls).
Proof.
  intros F. unfold surface_records.
  destruct (3 <=? List.length ls) eqn:E; [|apply located_nil].
  apply Nat.leb_le in E. pose proof (firstn4_length ls E) as L.
  set (fl := firstn 4 ls) in *. clearbody fl.
  apply located_app; [apply located_leaves, endpoint_records_leaves|].
  intros post. unfold refs_typed, refs.
  assert (B : Forall (fun e => e_id e < n + 2 * List.length fl)
                     (pre ++ endpoint_records n fl)).
  { apply Forall_app. split; [eapply below_weaken; [|exact F]; lia|].
    rewrite <- (endpoint_records_length fl n).
    apply ids_from_below, (numbered_endpoints n). }
  constructor; [reflexivity|]. constructor; [|constructor].
  cbn [e_type e_attrs flat_map attr_refs app map expected_refs String.eqb Ascii.eqb Bool.eqb andb].
  f_equal; [|f_equal].
  - rewrite <- app_assoc, record_type_skip by exact F.
    destruct fl as [|l0 fl]; [simpl in L; lia|].
    cbn [endpoint_records app]. apply (record_type_here (point_record n (start l0))).
  - rewrite record_type_skip by exact B.
    apply (record_type_here (mkEntity (n + 2 * List.length fl) "DIRECTION" _)).
Qed.

Lemma located_block pre n ps :
  Forall (fun e => e_id e < n) pre -> located pre (block_records n ps).
Proof.
  intros F. unfold block_records. destruct (bounding_box ps) as [lo hi].
  intros post. unfold refs_typed, refs.
  repeat constructor.
  cbn [e_type e_attrs flat_map attr_refs app map expected_refs String.eqb Ascii.eqb Bool.eqb andb].
  rewrite record_type_skip by exact F.
  f_equal. apply (record_type_here (point_record n _)).
Qed.

Lemma all_records_typed ps ls :
  Forall (refs_typed (all_records ps ls)) (all_records ps ls).
Proof.
  assert (L : located [] (all_records ps ls)).
  { unfold all_records.
    set (r2 := points_records 1 ps).
    set (r3 := lines_records (1 + List.length r2) ls).
    set (r4 := surface_records (1 + List.length r2 + List.length r3) ls).
    assert (B2 : Forall (fun e => e_id e < 1 + List.length r2) r2)
      by apply ids_from_below, (numbered_points 1).
    assert (B3 : Forall (fun e => e_id e < 1 + List.length r2 + List.length r3)
                        (r2 ++ r3)).
    { apply Forall_app. split; [eapply below_weaken; [|exact B2]; lia|].
      apply ids_from_below, (numbered_lines 1). lia. }
    assert (B4 : Forall (fun e => e_id e < 1 + List.length r2 + List.length r3
                                           + List.length r4)
                        ((r2 ++ r3) ++ r4)).
    { apply Forall_app. split; [eapply below_weaken; [|exact B3]; lia|].
      apply ids_from_below, numbered_surface. }
    apply located_app; [apply located_leaves, points_records_leaves|].
    apply located_app; [apply located_lines; exact B2|].
    apply located_app; [apply located_surface; exact B3|].
    unfold solid_records. destruct (3 <=? List.length ls).
    - apply located_block. exact B4.
    - apply located_nil. }
  specialize (L []). rewrite app_nil_r in L. exact L.
Qed.

(** X13. After one call every reference resolves to a record of the type
    its place asks for: the reference of a VECTOR to a DIRECTION, those of a
    LINE to a CARTESIAN_POINT and a VECTOR, those of a PLANE to a
    CARTESIAN_POINT and a DIRECTION, that of a BLOCK to a CARTESIAN_POINT;
    CARTESIAN_POINT and DIRECTION records refer to nothing. *)
Theorem references_are_typed h filename w :
  let es := entities (generator (snd (generate_step_file h filename w))) in
  Forall (refs_typed es) es.
Proof.
  intros es. unfold es. rewrite generate_entities. apply all_records_typed.
Qed.

(** * The written file *)





Lemma data_lines_of_document h filename es :
  filter is_data_line (document h filename es)
  = map (fun e => (render_entity h e ++ nl)%string) es /\
  List.length (document h filename es) = 9 + List.length es.
Proof.
  unfold document. split.
  - cbn [app filter is_data_line Ascii.eqb Bool.eqb String.append andb].
    rewrite filter_app. cbn [filter is_data_line Ascii.eqb Bool.eqb String.append andb].
    rewrite app_nil_r.
    induction es as [|e es IH]; [reflexivity|].
    cbn [map filter]. rewrite IH. reflexivity.
  - rewrite !length_app, length_map. simpl. lia.
Qed.

(** X15. In a document that was written completely, the chunks that start
    with [#] are the records: one line per record, in the order of creation,
    the text of the record followed by a newline; with K records the document
    has K + 9 chunks. *)
Theorem document_data_lines h filename w :
  let r := generate_step_file h filename w in
  let es := entities (generator (snd r)) in
  fst r = Ok tt ->
  exists chunks,
    files (snd r) filename = Some chunks /\
    List.length chunks = 9 + List.length es /\
    filter is_data_line chunks
    = map (fun e => (render_entity h e ++ nl)%string) es.
Proof.
  intros r es S.
  destruct (generate_spec h filename w) as (_ & _ & _ & D & _). fold r in D.
  specialize (D S).
  assert (E : es = all_records (points (geometry w)) (lines (geometry w)))
    by (unfold es, r; apply generate_entities).
  rewrite <- E in D.
  exists (document h filename es). split; [exact D|].
  destruct (data_lines_of_document h filename es) as [F L].
  split; [exact L|exact F].
Qed.

Lemma document_data_lines_witness :
  exists chunks,
    files (snd (generate_step_file willing_host "b1.step"
                  (mkWorld fresh_generator one_segment_set no_files))) "b1.step"
    = Some chunks /\
    List.length chunks = 14.
Proof.
  assert (S : fst (generate_step_file willing_host "b1.step"
                     (mkWorld fresh_generator one_segment_set no_files)) = Ok tt)
    by (vm_compute; reflexivity).
  destruct (document_data_lines willing_host "b1.step"
              (mkWorld fresh_generator one_segment_set no_files) S)
    as (chunks & F & L & _).
  exists chunks. split; [exact F|]. rewrite L. vm_compute. reflexivity.
Defined.

(** X16. For a set without points and without segments a call produces no
    record and leaves the counter at 1; the document it writes is the header
    and the trailer, nine chunks without a data line. *)
Theorem empty_set_document h filename g set_name fs :
  let r := generate_step_file h filename
             (mkWorld g (mkB1Entity [] [] set_name) fs) in
  generator (snd r) = mkSTEPGenerator 1 [] /\
  (fst r = Ok tt ->
   files (snd r) filename
   = Some [ "ISO-10303-21;" ++ nl;
            "HEADER;" ++ nl;
            "FILE_DESCRIPTION(('Generated STEP file for B1 entity'),'2;1');" ++ nl;
            "FILE_NAME('" ++ filename ++ "','" ++ strftime_now h
              ++ "',('STEP Generator'),('Python Script'),'','','');" ++ nl;
            "FILE_SCHEMA(('AUTOMOTIVE_DESIGN'));" ++ nl;
            "ENDSEC;" ++ nl ++ nl;
            "DATA;" ++ nl;
            "ENDSEC;" ++ nl;
            "END-ISO-10303-21;" ++ nl ]%string).
Proof.
  intros r.
  destruct (generate_spec h filename (mkWorld g (mkB1Entity [] [] set_name) fs))
    as (G & _ & _ & D & _).
  fold r in G, D. split; [exact G|exact D].
Qed.

Lemma empty_set_document_witness :
  exists chunks,
    files (snd (generate_step_file willing_host "b1.step"
                  (mkWorld fresh_generator (mkB1Entity [] [] "B1") no_files))) "b1.step"
    = Some chunks /\ List.length chunks = 9.
Proof.
  assert (S : fst (generate_step_file willing_host "b1.step"
                     (mkWorld fresh_generator (mkB1Entity [] [] "B1") no_files)) = Ok tt)
    by (vm_compute; reflexivity).
  eexists. split.
  - apply (empty_set_document willing_host "b1.step" fresh_generator "B1" no_files).
    exact S.
  - reflexivity.
Defined.

(** X17. The box of the solid step is built from the points only: for a set
    with three segments or more and no point, the call ends with eight
    CARTESIAN_POINT records at the origin and a BLOCK of extents 0, wherever
    the segments are. *)
Theorem solid_without_points_is_at_origin h filename w :
  points (geometry w) = [] ->
  3 <= List.length (lines (geometry w)) ->
  exists front k,
    entities (generator (snd (generate_step_file h filename w)))
    = front
        ++ [ point_record k origin; point_record (k + 1) origin;
             point_record (k + 2) origin; point_record (k + 3) origin;
             point_record (k + 4) origin; point_record (k + 5) origin;
             point_record (k + 6) origin; point_record (k + 7) origin;
             mkEntity (k + 8) "BLOCK"
               [ALabel EmptyString; ARef k; ANum 0; ANum 0; ANum 0] ].
Proof.
  intros P L. rewrite generate_entities, P. unfold all_records, solid_records.
  replace (3 <=? List.length (lines (geometry w))) with true
    by (symmetry; apply Nat.leb_le; exact L).
  set (r2 := points_records 1 []).
  set (r3 := lines_records (1 + List.length r2) (lines (geometry w))).
  set (r4 := surface_records (1 + List.length r2 + List.length r3) (lines (geometry w))).
  exists (r2 ++ r3 ++ r4),
         (1 + List.length r2 + List.length r3 + List.length r4).
  rewrite <- !app_assoc. reflexivity.
Qed.

Lemma solid_without_points_is_at_origin_witness :
  exists front k,
    entities (generator (snd (generate_step_file willing_host "b1.step"
       (mkWorld fresh_generator
          (mkB1Entity [] (lines square_set) "B1") no_files))))
    = front
        ++ [ point_record k origin; point_record (k + 1) origin;
             point_record (k + 2) origin; point_record (k + 3) origin;
             point_record (k + 4) origin; point_record (k + 5) origin;
             point_record (k + 6) origin; point_record (k + 7) origin;
             mkEntity (k + 8) "BLOCK"
               [ALabel EmptyString; ARef k; ANum 0; ANum 0; ANum 0] ].
Proof.
  apply (solid_without_points_is_at_origin willing_host "b1.step"
           (mkWorld fresh_generator (mkB1Entity [] (lines square_set) "B1") no_files)).
  - reflexivity.
  - vm_compute. lia.
Defined.

(** * The CSV loader *)

Lemma csv_loop_app rd a : forall b st,
  csv_loop rd (a ++ b) st = rbind (csv_loop rd a st) (csv_loop rd b).
Proof.
  induction a as [|raw a IH]; intros b st; cbn [app csv_loop]; [reflexivity|].
  destruct (csv_line rd raw st) as [st'|e]; cbn [rbind]; [apply IH|reflexivity].
Qed.

Lemma csv_line_outside rd raw b :
  names_section rd raw = false -> csv_line rd raw (b, None) = Ok (b, None).
Proof.
  unfold names_section, csv_line. cbn [section_is].
  destruct (_ || _); [reflexivity|]. simpl.
  destruct (String.eqb (str_upper rd (str_strip rd raw)) "POINTS"); [discriminate|].
  destruct (String.eqb (str_upper rd (str_strip rd raw)) "LINES"); [discriminate|].
  reflexivity.
Qed.

Lemma csv_loop_outside rd pre : forall b,
  Forall (fun raw => names_section rd raw = false) pre ->
  csv_loop rd pre (b, None) = Ok (b, None).
Proof.
  induction pre as [|raw pre IH]; intros b F; cbn [csv_loop]; [reflexivity|].
  inversion F as [|? ? H F']; subst.
  rewrite (csv_line_outside _ _ _ H). cbn [rbind]. apply IH, F'.
Qed.

(** X18. [from_csv] ignores everything before the first section name:
    lines that come before any POINTS or LINES line are never split or
    converted, so they change nothing, well formed or not. *)
Theorem csv_preamble_is_ignored rd file1 file2 pre rest :
  read_lines rd file1 = Some (pre ++ rest) ->
  read_lines rd file2 = Some rest ->
  Forall (fun raw => names_section rd raw = false) pre ->
  from_csv rd file1 = from_csv rd file2.
Proof.
  intros R1 R2 F. unfold from_csv. rewrite R1, R2, csv_loop_app.
  rewrite (csv_loop_outside rd pre _ F). reflexivity.
Qed.

Lemma csv_preamble_is_ignored_witness :
  from_csv sample_reader "full.csv" = from_csv sample_reader "bare.csv".
Proof.
  apply (csv_preamble_is_ignored sample_reader "full.csv" "bare.csv"
           ["junk,before"] ["POINTS"; "0,1,2"; "1,1"; "LINES"; "0,0,0,1,1,1,9"]).
  - reflexivity.
  - reflexivity.
  - repeat constructor.
Defined.

(** X19. A load is all or nothing: when a data line of a POINTS section has
    three fields or more and one of the first three is not a number,
    [from_csv] returns nothing, whatever was read before and whatever
    follows. *)
Theorem csv_bad_number_fails_the_load rd filename pre bad post b i :
  read_lines rd filename = Some (pre ++ bad :: post) ->
  csv_loop rd pre (B1Entity_init, None) = Ok (b, Some "points") ->
  is_data rd bad = true ->
  3 <= List.length (split_comma (str_strip rd bad)) ->
  i < 3 ->
  csv_field rd (split_comma (str_strip rd bad)) i = Raise ValueError ->
  from_csv rd filename = None.
Proof.
  intros R P D L I V. unfold from_csv. rewrite R, csv_loop_app, P.
  cbn [rbind csv_loop].
  assert (E : exists e, csv_line rd bad (b, Some "points") = Raise e).
  { unfold csv_line. unfold is_data in D.
    apply andb_prop in D as [D D3]. apply andb_prop in D as [D1 D2].
    apply negb_true_iff in D1, D2, D3. rewrite D1, D2, D3.
    cbn [section_is String.eqb Ascii.eqb Bool.eqb andb].
    replace (3 <=? List.length (split_comma (str_strip rd bad))) with true
      by (symmetry; apply Nat.leb_le; exact L).
    destruct i as [|[|[|i]]]; [| | |lia].
    - rewrite V. cbn [rbind]. eauto.
    - destruct (csv_field rd _ 0); cbn [rbind]; [|eauto]. rewrite V. cbn [rbind]. eauto.
    - destruct (csv_field rd _ 0); cbn [rbind]; [|eauto].
      destruct (csv_field rd _ 1); cbn [rbind]; [|eauto]. rewrite V. cbn [rbind]. eauto. }
  destruct E as [e E]. rewrite E. reflexivity.
Qed.

Lemma csv_bad_number_fails_the_load_witness :
  from_csv sample_reader "bad.csv" = None.
Proof.
  apply (csv_bad_number_fails_the_load sample_reader "bad.csv"
           ["POINTS"; "0,1,2"] "0,x,2" ["1,1,1"]
           (mkB1Entity [mkPoint3D 0 1 2] [] "B1") 1).
  - reflexivity.
  - reflexivity.
  - reflexivity.
  - simpl. lia.
  - lia.
  - reflexivity.
Defined.

Lemma csv_line_shape rd raw b sec b' sec' :
  csv_line rd raw (b, sec) = Ok (b', sec') ->
  name b' = name b /\
  List.length (points b') + List.length (lines b')
  <= 1 + (List.length (points b) + List.length (lines b)).
Proof.
  unfold csv_line.
  repeat match goal with
         | |- context [if ?c then _ else _] => destruct c
         | |- context [rbind ?r _] => destruct r; cbn [rbind]
         | |- Ok _ = Ok _ -> _ => intros E; injection E as <- <-
         | |- Raise _ = Ok _ -> _ => discriminate
         end;
    cbn [add_point add_line name points lines]; rewrite ?length_app;
    cbn [List.length]; split; try reflexivity; lia.
Qed.

Lemma csv_loop_shape rd ls : forall b sec b' sec',
  csv_loop rd ls (b, sec) = Ok (b', sec') ->
  name b' = name b /\
  List.length (points b') + List.length (lines b')
  <= List.length ls + (List.length (points b) + List.length (lines b)).
Proof.
  induction ls as [|raw ls IH]; intros b sec b' sec' E; cbn [csv_loop] in E.
  - injection E as <- <-. split; [reflexivity|simpl; lia].
  - destruct (csv_line rd raw (b, sec)) as [[b1 sec1]|e] eqn:L; [|discriminate].
    cbn [rbind] in E. apply csv_line_shape in L as [N1 C1].
    apply IH in E as [N2 C2]. split; [congruence|]. cbn [List.length]. lia.
Qed.

(** X20. A set loaded by [from_csv] is always named B1, and it has at most
    as many points and segments together as the file has lines. *)
Theorem csv_loaded_set_shape rd filename ls b :
  read_lines rd filename = Some ls ->
  from_csv rd filename = Some b ->
  name b = "B1" /\
  List.length (points b) + List.length (lines b) <= List.length ls.
Proof.
  unfold from_csv. intros R. rewrite R.
  destruct (csv_loop rd ls (B1Entity_init, None)) as [[b' sec']|e] eqn:E;
    [|discriminate].
  intros S. injection S as <-.
  apply csv_loop_shape in E as [N C]. simpl in N, C. split; [exact N|lia].
Qed.

Lemma csv_loaded_set_shape_witness :
  name (mkB1Entity [mkPoint3D 0 1 2]
          [mkLine3D (mkPoint3D 0 0 0) (mkPoint3D 1 1 1)] "B1") = "B1".
Proof.
  apply (csv_loaded_set_shape sample_reader "bare.csv"
           ["POINTS"; "0,1,2"; "1,1"; "LINES"; "0,0,0,1,1,1,9"]).
  - reflexivity.
  - reflexivity.
Defined.

(** * Coordinates in the records *)

Lemma points_records_nth ps : forall n i p,
  nth_error ps i = Some p ->
  nth_error (points_records n ps) i = Some (point_record (n + i) p).
Proof.
  induction ps as [|q ps IH]; intros n i p E; destruct i as [|i]; simpl in *;
    try discriminate.
  - injection E as ->. rewrite Nat.add_0_r. reflexivity.
  - rewrite (IH (S n) i p E). f_equal. f_equal. lia.
Qed.

Lemma lines_records_starts ls : forall n l,
  In l ls -> exists id, In (point_record id (start l)) (lines_records n ls).
Proof.
  induction ls as [|l0 ls IH]; intros n l H; [destruct H|].
  cbn [lines_records]. destruct H as [->|H].
  - exists n. apply in_or_app. left. unfold line_records. left. reflexivity.
  - destruct (IH (n + List.length (line_records n l0)) l H) as [id I].
    exists id. apply in_or_app. right. exact I.
Qed.

(** X21. A call keeps the coordinates it is given: the record at position
    i is the CARTESIAN_POINT of the i-th point of the set, with identifier
    i + 1 and the point's coordinates as they are, and the start of every
    segment is the coordinates of some CARTESIAN_POINT record. *)
Theorem coordinates_are_preserved h filename w :
  let es := entities (generator (snd (generate_step_file h filename w))) in
  (forall i p,
     nth_error (points (geometry w)) i = Some p ->
     nth_error es i
     = Some (mkEntity (i + 1) "CARTESIAN_POINT"
               [ALabel EmptyString; ACoords (x p) (y p) (z p)])) /\
  (forall l,
     In l (lines (geometry w)) ->
     exists id,
       In (mkEntity id "CARTESIAN_POINT"
             [ALabel EmptyString;
              ACoords (x (start l)) (y (start l)) (z (start l))]) es).
Proof.
  intros es. unfold es. rewrite generate_entities. unfold all_records. split.
  - intros i p E. rewrite nth_error_app1.
    + rewrite (points_records_nth _ 1 i p E). rewrite Nat.add_comm. reflexivity.
    + rewrite points_records_length. apply nth_error_Some. congruence.
  - intros l I.
    destruct (lines_records_starts (lines (geometry w))
                (1 + List.length (points_records 1 (points (geometry w)))) l I)
      as [id K].
    exists id. apply in_or_app. right. apply in_or_app. left. exact K.
Qed.

Lemma coordinates_are_preserved_witness :
  nth_error
    (entities (generator (snd (generate_step_file willing_host "b1.step"
       (mkWorld fresh_generator square_set no_files))))) 2
  = Some (mkEntity 3 "CARTESIAN_POINT" [ALabel EmptyString; ACoords 1 1 0]).
Proof.
  apply (proj1 (coordinates_are_preserved willing_host "b1.step"
                  (mkWorld fresh_generator square_set no_files)) 2 (mkPoint3D 1 1 0)).
  reflexivity.
Defined.

(** X22. Writing again replaces the file.  When a second call on the same
    encoder and path returns, whatever the clock and the host of that call,
    the file holds one document: the header with the timestamp of the second
    call, one line for each record of the first call, which the second call
    produces again, and the trailer; K + 9 chunks for K records, not two
    documents one after the other. *)
Theorem second_call_rewrites_the_file h1 h2 filename w :
  let r1 := generate_step_file h1 filename w in
  let r2 := generate_step_file h2 filename (snd r1) in
  let es := entities (generator (snd r1)) in
  fst r2 = Ok tt ->
  generator (snd r2) = generator (snd r1) /\
  files (snd r2) filename = Some (document h2 filename es) /\
  List.length (document h2 filename es) = 9 + List.length es /\
  filter is_data_line (document h2 filename es)
  = map (fun e => (render_entity h2 e ++ nl)%string) es.
Proof.
  intros r1 r2 es S.
  destruct (generate_spec h1 filename w) as (G1 & B1 & _).
  destruct (generate_spec h2 filename (snd r1)) as (G2 & _ & _ & D & _).
  fold r1 in G1, B1. fold r2 in G2, D.
  rewrite B1 in G2, D.
  assert (E : es = all_records (points (geometry w)) (lines (geometry w)))
    by (unfold es; rewrite G1; reflexivity).
  rewrite <- E in D.
  split; [rewrite G1, G2; reflexivity|]. split; [exact (D S)|].
  destruct (data_lines_of_document h2 filename es) as [F L].
  split; [exact L|exact F].
Qed.

Lemma second_call_rewrites_the_file_witness :
  let later :=
    mkHost (fun _ => "0.0") "2024-01-01T00:00:05" (fun _ => true) (fun _ _ _ => true) in
  let r1 := generate_step_file willing_host "b1.step"
              (mkWorld fresh_generator one_segment_set no_files) in
  files (snd (generate_step_file later "b1.step" (snd r1))) "b1.step"
  = Some (document later "b1.step" (entities (generator (snd r1)))).
Proof.
  intros later r1.
  assert (S : fst (generate_step_file later "b1.step" (snd r1)) = Ok tt)
    by (vm_compute; reflexivity).
  exact (proj1 (proj2 (second_call_rewrites_the_file willing_host later "b1.step"
                         (mkWorld fresh_generator one_segment_set no_files) S))).
Defined.

Lemma bounding_box_contains_points_witness :
  exists lo hi, get_bounding_box square_set = Ok (lo, hi) /\
                inside lo hi (mkPoint3D 1 1 0).
Proof.
  destruct (bounding_box_contains_points square_set) as (lo & hi & E & I).
  exists lo, hi. split; [exact E|]. apply I. simpl. auto.
Defined.
